(** * Replaceroo: list-driven search and replace

    A shallow embedding of [replaceroo/replaceroo.py] and the properties of
    its substitution engine [replace_strings] and of the replacement-list
    construction of [get_user_input].

    Python [str] values are modelled as lists of characters, Python [int]
    values as [Z], the dictionaries with a fixed set of keys as records whose
    fields carry the keys' names. *)

From Stdlib Require Import List Ascii String ZArith Lia Bool Arith.
From Stdlib Require Import Sorting.Sorted Sorting.Permutation.
Import ListNotations.

Local Open Scope Z_scope.

(** ** Host strings *)

Module PyStr.

(** A Python [str]: a finite sequence of characters. *)
Definition str : Type := list ascii.

(** A literal. *)
Definition lit (s : String.string) : str := list_ascii_of_string s.

(** [s.startswith(pat)]. *)
Fixpoint startswith (s pat : str) : bool :=
  match pat with
  | [] => true
  | p :: pat' =>
      match s with
      | [] => false
      | c :: s' => Ascii.eqb c p && startswith s' pat'
      end
  end.

(** The scan behind [s.count(sub)] for a non-empty [sub]: walk [s] from the
    left; [skip] is the number of characters still covered by the match that
    was just consumed, so that matches never overlap. *)
Fixpoint count_scan (sub : str) (skip : nat) (s : str) : nat :=
  match s with
  | [] => O
  | _ :: s' =>
      match skip with
      | S k => count_scan sub k s'
      | O =>
          if startswith s sub
          then S (count_scan sub (Nat.pred (List.length sub)) s')
          else count_scan sub O s'
      end
  end.

(** [s.count(sub)]: the number of non-overlapping occurrences of [sub] in
    [s]; for the empty [sub] Python answers [len(s) + 1]. *)
Definition count (s sub : str) : Z :=
  match sub with
  | [] => Z.of_nat (List.length s) + 1
  | _ :: _ => Z.of_nat (count_scan sub O s)
  end.

(** The scan behind [s.replace(old, new, n)] for a non-empty [old]: at most
    [n] matches are rewritten, left to right; after a match the scan resumes
    past the matched span of [s]. *)
Fixpoint replace_scan (old new : str) (n skip : nat) (s : str) : str :=
  match s with
  | [] => []
  | c :: s' =>
      match skip with
      | S k => replace_scan old new n k s'
      | O =>
          match n with
          | O => s
          | S n' =>
              if startswith s old
              then new ++ replace_scan old new n' (Nat.pred (List.length old)) s'
              else c :: replace_scan old new n O s'
          end
      end
  end.

(** [s.replace("", new, n)]: [new] goes in front of the first [n] characters
    and, when [n] exceeds [len(s)], once more at the end. *)
Fixpoint interleave (new : str) (n : nat) (s : str) : str :=
  match n with
  | O => s
  | S n' =>
      match s with
      | [] => new
      | c :: s' => new ++ c :: interleave new n' s'
      end
  end.

(** [s.replace(old, new, count)] as documented: the first [count]
    occurrences are replaced, all of them when [count] is negative.  No
    string has more than [len(s) + 1] occurrences of anything. *)
Definition replace (s old new : str) (count : Z) : str :=
  let n := if count <? 0 then S (List.length s) else Z.to_nat count in
  match old with
  | [] => interleave new n s
  | _ :: _ => replace_scan old new n O s
  end.

(** [sep.join(parts)]. *)
Fixpoint join (sep : str) (parts : list str) : str :=
  match parts with
  | [] => []
  | p :: rest =>
      match rest with
      | [] => p
      | _ :: _ => p ++ sep ++ join sep rest
      end
  end.

End PyStr.

Import PyStr.

(** ** Host lists *)

Module PyList.

Section Sorted.
Context {A : Type} (key : A -> Z).

(** [x] goes in front of the first element whose key is not below its own,
    hence in front of every later element with the same key. *)
Fixpoint insert (x : A) (l : list A) : list A :=
  match l with
  | [] => [x]
  | y :: l' => if key x <=? key y then x :: l else y :: insert x l'
  end.

(** [sorted(l, key=key)]: ascending and stable.  The result of a stable
    sort is determined by the input, so insertion from the right stands
    for the host's algorithm. *)
Definition sorted (l : list A) : list A := fold_right insert [] l.

(** The order [sorted] establishes: ascending by key. *)
Definition key_le (a b : A) : Prop := key a <= key b.
End Sorted.

(** [sum(b for ...)] over booleans: [True] counts 1, [False] counts 0. *)
Definition sum_bool (l : list bool) : Z :=
  fold_left (fun acc b => acc + Z.b2z b) l 0.

(** [zip(a, b)] stops at the end of the shorter list. *)
Definition zip {A B : Type} (a : list A) (b : list B) : list (A * B) :=
  List.combine a b.

End PyList.

(** ** The substitution engine *)

(** One entry of [details]: the dictionary built at lines 448-453. *)
Record detail : Type := mk_detail {
  Original_String : str;
  Full_Search_String : str;
  New_String : str;
  Full_Replace : str;
  Instances : Z
}.

(** The dictionary [summary] of lines 462-467. *)
Record summary : Type := mk_summary {
  Searched_for_Strings : Z;
  Strings_Found : Z;
  Strings_Not_Found : Z;
  Total_Replaced : Z;
  Multiple_Instances : Z
}.

(** The variables the [for] loop of [replace_strings] updates. *)
Record loop_state : Type := mk_state {
  text : str;
  index : Z;
  count : Z;
  not_found : list str;
  details : list detail
}.

Definition init_state (text0 : str) : loop_state :=
  {| text := text0; index := 0; count := 0; not_found := []; details := [] |}.

(** The body of the loop, lines 424-456. *)
Definition loop_body (prefix suffix : str) (st : loop_state)
    (pair : str * str) : loop_state :=
  let '(from_string, to_string) := pair in
  let replace_from := prefix ++ from_string ++ suffix in
  let replace_to := prefix ++ to_string ++ suffix in
  let instances := PyStr.count (text st) replace_from in
  let found := instances >? 0 in
  {| text :=
       if found
       then PyStr.replace (text st) replace_from replace_to instances
       else text st;
     index := index st + 1;
     count := if found then count st + instances else count st;
     not_found :=
       if found then not_found st else not_found st ++ [from_string];
     details :=
       details st ++
       [ {| Original_String := from_string;
            Full_Search_String := replace_from;
            New_String := to_string;
            Full_Replace := replace_to;
            Instances := instances |} ] |}.

(** The whole loop of line 421. *)
Definition run_loop (prefix suffix : str) (pairs : list (str * str))
    (st : loop_state) : loop_state :=
  fold_left (loop_body prefix suffix) pairs st.

(** [replace_strings(text, from_list, to_list, prefix, suffix)]. *)
Definition replace_strings (text0 : str) (from_list to_list : list str)
    (prefix suffix : str) : str * summary * list detail :=
  let st := run_loop prefix suffix (PyList.zip from_list to_list)
                     (init_state text0) in
  let details' := PyList.sorted Instances (details st) in
  let summary' :=
    {| Searched_for_Strings := index st;
       Strings_Found :=
         PyList.sum_bool (map (fun i => Instances i >? 0) details');
       Strings_Not_Found :=
         PyList.sum_bool (map (fun i => Instances i =? 0) details');
       Total_Replaced := count st;
       Multiple_Instances :=
         PyList.sum_bool (map (fun i => Instances i >? 1) details') |} in
  (text st, summary', details').

(** The call with the default arguments [prefix = ""] and [suffix = ""]. *)
Definition replace_strings_default (text0 : str) (from_list to_list : list str)
    : str * summary * list detail :=
  replace_strings text0 from_list to_list [] [].

(** ** The replacement list of [get_user_input] *)

(** The table [replace_methods] of lines 180-186. *)
Definition replace_methods : list (str * str) :=
  [ (lit "l", lit "List");
    (lit "p", lit "Prefix");
    (lit "s", lit "Suffix");
    (lit "lp", lit "List / Prefix");
    (lit "ls", lit "List / Suffix");
    (lit "ps", lit "Prefix / Suffix");
    (lit "lps", lit "List / Prefix / Suffix") ].

(** [if n:] on an integer. *)
Definition truthy (n : Z) : bool := negb (n =? 0).

(** Lines 282-346 of [get_user_input]: how the returned [to_list] is made.
    The console and the files are the function's environment; what it reads
    from them is given here as arguments: the accepted [method], the lines of
    the 'from' file, the lines of the 'to' file (read only when the method
    has an [l]) and the answers to the prefix and suffix prompts (asked only
    when the method has a [p], an [s]). *)
Definition get_user_input_to_list (method : str)
    (from_list to_list_lines : list str) (prefix_answer suffix_answer : str)
    : list str :=
  let temp_list :=
    if truthy (PyStr.count method (lit "l")) then to_list_lines
    else from_list in
  let to_prefix :=
    if truthy (PyStr.count method (lit "p")) then prefix_answer else [] in
  let to_suffix :=
    if truthy (PyStr.count method (lit "s")) then suffix_answer else [] in
  map (fun fromStr => to_prefix ++ fromStr ++ to_suffix) temp_list.

(** ** The specification's own wording *)

Module Spec.

(** "Replace all non-overlapping occurrences of fullSearch with fullReplace,
    left to right; after consuming a match, scanning resumes immediately
    past the replaced span's original length."  For a non-empty pattern. *)
Fixpoint replace_all_scan (fullSearch fullReplace : str) (skip : nat)
    (doc : str) : str :=
  match doc with
  | [] => []
  | c :: doc' =>
      match skip with
      | S k => replace_all_scan fullSearch fullReplace k doc'
      | O =>
          if startswith doc fullSearch
          then fullReplace ++
               replace_all_scan fullSearch fullReplace
                 (Nat.pred (List.length fullSearch)) doc'
          else c :: replace_all_scan fullSearch fullReplace O doc'
      end
  end.

(** "fullReplace inserted before every character and once at the end." *)
Definition insert_around (fullReplace doc : str) : str :=
  flat_map (fun c => fullReplace ++ [c]) doc ++ fullReplace.

Definition replace_all (doc fullSearch fullReplace : str) : str :=
  match fullSearch with
  | [] => insert_around fullReplace doc
  | _ :: _ => replace_all_scan fullSearch fullReplace O doc
  end.

(** The processing of section 4.2, term by term in list order: the final
    document and one record per paired term, in processing order. *)
Fixpoint substitute (scopePrefix scopeSuffix : str) (document : str)
    (searchTerms replacementTerms : list str) : str * list detail :=
  match searchTerms, replacementTerms with
  | term :: searchTerms', replacement :: replacementTerms' =>
      let fullSearch := scopePrefix ++ term ++ scopeSuffix in
      let fullReplace := scopePrefix ++ replacement ++ scopeSuffix in
      let instances := PyStr.count document fullSearch in
      let document' :=
        if 0 <? instances then replace_all document fullSearch fullReplace
        else document in
      let '(final, records) :=
        substitute scopePrefix scopeSuffix document'
                   searchTerms' replacementTerms' in
      (final,
       mk_detail term fullSearch replacement fullReplace instances :: records)
  | _, _ => (document, [])
  end.

(** The summary of section 4.2, derived from a record sequence. *)
Definition summarise (records : list detail) : summary :=
  {| Searched_for_Strings := Z.of_nat (List.length records);
     Strings_Found :=
       Z.of_nat (List.length (filter (fun r => 0 <? Instances r) records));
     Strings_Not_Found :=
       Z.of_nat (List.length (filter (fun r => Instances r =? 0) records));
     Total_Replaced := fold_right Z.add 0 (map Instances records);
     Multiple_Instances :=
       Z.of_nat (List.length (filter (fun r => 1 <? Instances r) records)) |}.

(** The seven variants of the replacement method. *)
Inductive ReplacementMethod : Type :=
| List_only
| Prefix_only
| Suffix_only
| List_Prefix
| List_Suffix
| Prefix_Suffix
| List_Prefix_Suffix.

Definition includes_List (m : ReplacementMethod) : bool :=
  match m with
  | List_only | List_Prefix | List_Suffix | List_Prefix_Suffix => true
  | Prefix_only | Suffix_only | Prefix_Suffix => false
  end.

Definition includes_Prefix (m : ReplacementMethod) : bool :=
  match m with
  | Prefix_only | List_Prefix | Prefix_Suffix | List_Prefix_Suffix => true
  | List_only | Suffix_only | List_Suffix => false
  end.

Definition includes_Suffix (m : ReplacementMethod) : bool :=
  match m with
  | Suffix_only | List_Suffix | Prefix_Suffix | List_Prefix_Suffix => true
  | List_only | Prefix_only | List_Prefix => false
  end.

(** The method string the user types for a variant. *)
Definition method_string (m : ReplacementMethod) : str :=
  match m with
  | List_only => lit "l"
  | Prefix_only => lit "p"
  | Suffix_only => lit "s"
  | List_Prefix => lit "lp"
  | List_Suffix => lit "ls"
  | Prefix_Suffix => lit "ps"
  | List_Prefix_Suffix => lit "lps"
  end.

(** Section 4.1, steps 1 and 2. *)
Definition base_list (m : ReplacementMethod) (SearchList ToList : list str)
    : list str :=
  if includes_List m then ToList else SearchList.

Definition ReplacementList (m : ReplacementMethod)
    (SearchList ToList : list str) (prefix suffix : str) : list str :=
  let prefix' := if includes_Prefix m then prefix else [] in
  let suffix' := if includes_Suffix m then suffix else [] in
  map (fun entry => prefix' ++ entry ++ suffix') (base_list m SearchList ToList).

End Spec.

(** ** Occurrences *)

(** [pat] occurs in [s] at some position. *)
Inductive occurs (pat : str) : str -> Prop :=
| occurs_here : forall s, startswith s pat = true -> occurs pat s
| occurs_later : forall c s, occurs pat s -> occurs pat (c :: s).

(** The two strings have no character in common. *)
Definition no_common_char (a b : str) : Prop :=
  forall c, In c a -> ~ In c b.

(** The two strings differ at a position that both of them have. *)
Fixpoint diverge (a b : str) : bool :=
  match a, b with
  | x :: a', y :: b' => if Ascii.eqb x y then diverge a' b' else true
  | _, _ => false
  end.

(** A written string [new] and a searched string [pat] cannot meet: the
    first character of each is not found further inside the other, and
    neither of them starts the other.  So it is with <t> and <g> when the
    terms t and g are different and hold neither bracket; so it is with two
    non-empty strings without a common character. *)
Definition apart (new pat : str) : bool :=
  match new, pat with
  | d :: nt, c :: pt =>
      negb (existsb (Ascii.eqb d) pt) && negb (existsb (Ascii.eqb c) nt) &&
      diverge new pat
  | _, _ => false
  end.

(** The first [n] pairs of search and replacement terms with their scope
    affixes: what the engine searches for and what it writes. *)
Definition scoped (prefix suffix term : str) : str :=
  prefix ++ term ++ suffix.

Definition scoped_pairs (prefix suffix : str) (from_list to_list : list str)
    : list (str * str) :=
  map (fun p => (scoped prefix suffix (fst p), scoped prefix suffix (snd p)))
      (PyList.zip from_list to_list).

(** Section 8, first property, as it is worded: the search terms are absent
    from each other as substrings. *)
Definition absent_from_each_other (terms : list str) : Prop :=
  forall i j a b, i <> j ->
    nth_error terms i = Some a -> nth_error terms j = Some b ->
    PyStr.count a b = 0.

(** Section 8, first property, as it is worded: on the engine's own output
    a second run finds nothing for a term whose replacement text matches no
    fullSearch pattern. *)
Definition second_run_finds_nothing (text0 : str)
    (from_list to_list : list str) (prefix suffix : str) : Prop :=
  absent_from_each_other (map fst (scoped_pairs prefix suffix from_list to_list)) ->
  let output := fst (fst (replace_strings text0 from_list to_list prefix suffix)) in
  forall d,
    In d (snd (replace_strings output from_list to_list prefix suffix)) ->
    (forall fullSearch,
        In fullSearch (map fst (scoped_pairs prefix suffix from_list to_list)) ->
        PyStr.count (New_String d) fullSearch = 0 /\
        PyStr.count (Full_Replace d) fullSearch = 0) ->
    Instances d = 0.

(** ** The scenario of the module's documentation *)

Module Scenario.

(** The search prefix and suffix of the example: one double quote. *)
Definition dquote : str := ["034"%char].

Definition quoted (s : str) : str := dquote ++ s ++ dquote.

(** [from.txt] and [to.txt]. *)
Definition from_txt : list str := [lit "word1"; lit "word2"; lit "word3"].

Definition to_txt : list str :=
  [lit "new_word1"; lit "new_word2"; lit "new_word3"].

(** A source text with the quoted term, a quoted longer word that starts
    with the term, and the bare term. *)
Definition source_text : str :=
  lit "replace " ++ quoted (lit "word1") ++
  lit ", keep " ++ quoted (lit "word10") ++ lit " and word1".

Definition source_text_mod : str :=
  lit "replace " ++ quoted (lit "new_word1") ++
  lit ", keep " ++ quoted (lit "word10") ++ lit " and word1".

(** What the same text becomes without search prefix and suffix. *)
Definition source_text_unscoped : str :=
  lit "replace " ++ quoted (lit "new_word1") ++
  lit ", keep " ++ quoted (lit "new_word10") ++ lit " and new_word1".

End Scenario.

(** ** The interactive part: host operations *)

Module PyText.

(** Equality of two strings, [a == b]. *)
Fixpoint str_eqb (a b : str) : bool :=
  match a, b with
  | [], [] => true
  | x :: a', y :: b' => Ascii.eqb x y && str_eqb a' b'
  | _, _ => false
  end.

(** The line boundaries of [str.splitlines] among the code points below
    256: \n, \v, \f, \r, \x1c, \x1d, \x1e and \x85. *)
Definition line_boundary (c : ascii) : bool :=
  existsb (Ascii.eqb c)
    ["010"; "011"; "012"; "013"; "028"; "029"; "030"; "133"]%char.

(** The scan of [s.splitlines()]; [line] holds the characters of the line
    being read, last first.  A \r that is followed by \n ends the line
    together with it; the end of the text ends a line only when the line has
    a character. *)
Fixpoint splitlines_from (line : str) (s : str) : list str :=
  match s with
  | [] =>
      match line with
      | [] => []
      | _ :: _ => [rev line]
      end
  | c :: s' =>
      if line_boundary c then
        rev line ::
        match s' with
        | c' :: s'' =>
            if Ascii.eqb c "013" && Ascii.eqb c' "010"
            then splitlines_from [] s''
            else splitlines_from [] s'
        | [] => []
        end
      else splitlines_from (c :: line) s'
  end.

Definition splitlines (s : str) : list str := splitlines_from [] s.

(** [s.rsplit(sep, 1)] for a non-empty [sep]: the text before and the text
    after the last occurrence of [sep], if there is one. *)
Fixpoint rsplit_last (s sep : str) : option (str * str) :=
  match s with
  | [] => None
  | c :: s' =>
      match rsplit_last s' sep with
      | Some (before, after) => Some (c :: before, after)
      | None =>
          if startswith s sep
          then Some ([], skipn (List.length sep) s)
          else None
      end
  end.

Definition rsplit_once (s sep : str) : list str :=
  match rsplit_last s sep with
  | Some (before, after) => [before; after]
  | None => [s]
  end.

(** [len(set(l))]: the number of distinct entries. *)
Fixpoint set_size (l : list str) : nat :=
  match l with
  | [] => O
  | x :: l' =>
      if existsb (str_eqb x) l' then set_size l' else S (set_size l')
  end.

(** A dictionary with string keys, in insertion order. *)
Definition dict (V : Type) : Type := list (str * V).

(** [d.get(k)]. *)
Fixpoint dict_get {V : Type} (d : dict V) (k : str) : option V :=
  match d with
  | [] => None
  | (k', v) :: d' => if str_eqb k' k then Some v else dict_get d' k
  end.

(** [d[k] = v]. *)
Fixpoint dict_set {V : Type} (d : dict V) (k : str) (v : V) : dict V :=
  match d with
  | [] => [(k, v)]
  | (k', v') :: d' =>
      if str_eqb k' k then (k', v) :: d' else (k', v') :: dict_set d' k v
  end.

End PyText.

Import PyText.

(** ** The file names [main] writes to *)

(** Line 124: [path.rsplit(".", 1)[0] + "_mod_summary.txt"]. *)
Definition summary_path (source_path : str) : str :=
  hd [] (rsplit_once source_path (lit ".")) ++ lit "_mod_summary.txt".

(** Line 136: [path.replace(".", "_mod.")]. *)
Definition new_path (source_path : str) : str :=
  PyStr.replace source_path (lit ".") (lit "_mod.") (-1).

(** ** The console and the files *)

Module Console.

(** The exceptions the program can run into. *)
Inductive exn : Type :=
| EOFError
| IndexError
| TypeError
| ValueError
| AttributeError
| OSError.

(** What the program consumes and produces: the lines still to be typed at
    the prompts, and the files written so far, oldest first, each with its
    path and the text given to [write].  What is printed is not kept. *)
Record world : Type := mk_world {
  stdin : list str;
  written : list (str * str)
}.

(** A step of the program: an exception or a value, and the world after. *)
Definition io (A : Type) : Type := world -> (exn + A) * world.

Definition ret {A : Type} (a : A) : io A := fun w => (inr a, w).

Definition raise {A : Type} (e : exn) : io A := fun w => (inl e, w).

Definition bind {A B : Type} (m : io A) (k : A -> io B) : io B :=
  fun w =>
    match m w with
    | (inl e, w') => (inl e, w')
    | (inr a, w') => k a w'
    end.

(** [input(prompt)]: the next line typed, [EOFError] when there is none. *)
Definition input : io str :=
  fun w =>
    match stdin w with
    | [] => (inl EOFError, w)
    | answer :: rest => (inr answer, mk_world rest (written w))
    end.

(** [f = open(path, 'w'); f.write(content); f.close()].  Opening a file
    for writing can fail (no such directory, no permission): [can_write]
    says for which paths it succeeds.  When it fails, [open] raises
    [OSError] or one of its subclasses and no file is written. *)
Definition write_file (can_write : str -> bool) (path content : str)
    : io unit :=
  fun w =>
    if can_write path
    then (inr tt, mk_world (stdin w) (written w ++ [(path, content)]))
    else (inl OSError, w).

(** A loop that only reads the console. *)
Definition on_stdin {A : Type} (f : list str -> (exn + A) * list str)
    : io A :=
  fun w =>
    let '(r, rest) := f (stdin w) in (r, mk_world rest (written w)).

(** The result of a call that touches neither console nor files. *)
Definition lift {A : Type} (r : exn + A) : io A := fun w => (r, w).

End Console.

Import Console.

Notation "x <- m ;; k" := (bind m (fun x => k))
  (at level 61, m at next level, right associativity).

Notation "' pat <- m ;; k" :=
  (bind m (fun x => match x with pat => k end))
  (at level 61, pat pattern, m at next level, right associativity).

(** ** [get_user_input] *)

Definition double_quote : str := ["034"%char].

Definition newline : str := ["010"%char].

(** The [replace] applied to every path that is typed or dropped into the
    console: the path without its double quotes. *)
Definition unquote (answer : str) : str :=
  PyStr.replace answer double_quote [] (-1).

(** Lines 189-208: ask until the answer is a key of [replace_methods]; the
    method and its name in the table. *)
Fixpoint ask_method (answers : list str) : (exn + (str * str)) * list str :=
  match answers with
  | [] => (inl EOFError, [])
  | method :: rest =>
      match dict_get replace_methods method with
      | Some name => (inr (method, name), rest)
      | None => ask_method rest
      end
  end.

Section Files.

(** What [open(path).read()] returns, [None] when opening or reading raises
    one of the errors the loops catch. *)
Variable read_file : str -> option str.

(** Lines 211-242: ask until the source file can be read; its path and its
    text. *)
Fixpoint ask_source (answers : list str) : (exn + (str * str)) * list str :=
  match answers with
  | [] => (inl EOFError, [])
  | answer :: rest =>
      let source_path := unquote answer in
      match read_file source_path with
      | Some text0 => (inr (source_path, text0), rest)
      | None => ask_source rest
      end
  end.

(** Lines 245-279: ask until the 'from' file can be read; a list with a
    repeated line raises [ValueError]. *)
Fixpoint ask_from (answers : list str)
    : (exn + (str * list str)) * list str :=
  match answers with
  | [] => (inl EOFError, [])
  | answer :: rest =>
      let from_list_path := unquote answer in
      match read_file from_list_path with
      | Some content =>
          let from_list := splitlines content in
          if negb (Nat.eqb (List.length from_list) (set_size from_list))
          then (inl ValueError, rest)
          else (inr (from_list_path, from_list), rest)
      | None => ask_from rest
      end
  end.

(** Lines 285-317: ask until the 'to' file can be read; repeated lines are
    only remarked on. *)
Fixpoint ask_to (answers : list str) : (exn + (str * list str)) * list str :=
  match answers with
  | [] => (inl EOFError, [])
  | answer :: rest =>
      let to_list_path := unquote answer in
      match read_file to_list_path with
      | Some content => (inr (to_list_path, splitlines content), rest)
      | None => ask_to rest
      end
  end.

(** Lines 353-381: ask for the search prefix and suffix until the user does
    not answer [y] to the offer to re-enter them.  Only the suffix has its
    two-character [\n] turned into a line feed.  The example printed at
    lines 363-365 needs [from_list[0]]. *)
Fixpoint ask_search (from_list : list str) (answers : list str)
    : (exn + (str * str)) * list str :=
  match answers with
  | search_prefix :: answer :: rest =>
      let search_suffix := PyStr.replace answer (lit "\n") newline (-1) in
      match from_list with
      | [] => (inl IndexError, rest)
      | _ :: _ =>
          match rest with
          | [] => (inl EOFError, [])
          | again :: rest' =>
              if str_eqb again (lit "y")
              then ask_search from_list rest'
              else (inr (search_prefix, search_suffix), rest')
          end
      end
  | _ => (inl EOFError, [])
  end.

(** [get_user_input()], lines 151-384. *)
Definition get_user_input : io (dict str * str * list str * list str) :=
  '(method, name) <- on_stdin ask_method ;;
  let details := dict_set [] (lit "Replace Method") name in
  '(source_path, text0) <- on_stdin ask_source ;;
  let details := dict_set details (lit "Source Text File") source_path in
  '(from_list_path, from_list) <- on_stdin ask_from ;;
  let details := dict_set details (lit "Replace List File") from_list_path in
  '(details, temp_list) <-
    (if truthy (PyStr.count method (lit "l"))
     then '(to_list_path, to_list) <- on_stdin ask_to ;;
          ret (dict_set details (lit "Replacement List File") to_list_path,
               to_list)
     else ret (details, from_list)) ;;
  '(details, to_prefix) <-
    (if truthy (PyStr.count method (lit "p"))
     then to_prefix <- input ;;
          ret (dict_set details (lit "Replacement Prefix") to_prefix,
               to_prefix)
     else ret (details, [])) ;;
  '(details, to_suffix) <-
    (if truthy (PyStr.count method (lit "s"))
     then to_suffix <- input ;;
          ret (dict_set details (lit "Replacement Suffix") to_suffix,
               to_suffix)
     else ret (details, [])) ;;
  let to_list := map (fun fromStr => to_prefix ++ fromStr ++ to_suffix)
                     temp_list in
  '(search_prefix, search_suffix) <- on_stdin (ask_search from_list) ;;
  let details :=
    if negb (str_eqb search_prefix [])
    then dict_set details (lit "Search Prefix") search_prefix
    else details in
  let details :=
    if negb (str_eqb search_suffix [])
    then dict_set details (lit "Search Suffix") search_suffix
    else details in
  ret (details, text0, from_list, to_list).

End Files.

(** ** [replace_strings] as [main] calls it *)

(** Lines 424-425 when the affixes come from [dict.get]: a missing key gives
    [None], and [None + str] and [str + None] raise [TypeError]. *)
Definition loop_body_call (prefix suffix : option str) (st : loop_state)
    (pair : str * str) : exn + loop_state :=
  match prefix, suffix with
  | Some p, Some s => inr (loop_body p s st pair)
  | _, _ => inl TypeError
  end.

Fixpoint run_loop_call (prefix suffix : option str)
    (pairs : list (str * str)) (st : loop_state) : exn + loop_state :=
  match pairs with
  | [] => inr st
  | term :: rest =>
      match loop_body_call prefix suffix st term with
      | inl e => inl e
      | inr st' => run_loop_call prefix suffix rest st'
      end
  end.

(** Lines 458-470: the sort, the summary and the returned triple. *)
Definition finish (st : loop_state) : str * summary * list detail :=
  let details' := PyList.sorted Instances (details st) in
  let summary' :=
    {| Searched_for_Strings := index st;
       Strings_Found :=
         PyList.sum_bool (map (fun i => Instances i >? 0) details');
       Strings_Not_Found :=
         PyList.sum_bool (map (fun i => Instances i =? 0) details');
       Total_Replaced := count st;
       Multiple_Instances :=
         PyList.sum_bool (map (fun i => Instances i >? 1) details') |} in
  (text st, summary', details').

Definition replace_strings_call (text0 : str) (from_list to_list : list str)
    (prefix suffix : option str) : exn + (str * summary * list detail) :=
  match run_loop_call prefix suffix (PyList.zip from_list to_list)
                      (init_state text0) with
  | inl e => inl e
  | inr st => inr (finish st)
  end.

(** ** [main] *)

(** A cell of a table handed to [tabulate]. *)
Inductive value : Type :=
| VStr (s : str)
| VInt (n : Z).

(** [d.items()] of the input details, row by row. *)
Definition details_items (d : dict str) : list (list value) :=
  map (fun kv => [VStr (fst kv); VStr (snd kv)]) d.

(** [replace_summary.items()]. *)
Definition summary_items (s : summary) : list (list value) :=
  [ [VStr (lit "Searched for Strings"); VInt (Searched_for_Strings s)];
    [VStr (lit "Strings Found"); VInt (Strings_Found s)];
    [VStr (lit "Strings Not Found"); VInt (Strings_Not_Found s)];
    [VStr (lit "Total Replaced"); VInt (Total_Replaced s)];
    [VStr (lit "Multiple Instances"); VInt (Multiple_Instances s)] ].

(** [detail.keys()] and [detail.values()]. *)
Definition detail_keys : list str :=
  [lit "Original String"; lit "Full Search String"; lit "New String";
   lit "Full Replace"; lit "Instances"].

Definition detail_values (d : detail) : list value :=
  [VStr (Original_String d); VStr (Full_Search_String d);
   VStr (New_String d); VStr (Full_Replace d); VInt (Instances d)].

Section Main.

Variable read_file : str -> option str.

(** [tabulate.tabulate(rows, headers)] of the library the program imports:
    any function from the rows and the headers to the rendered text. *)
Variable tabulate : list (list value) -> list str -> str.

(** The paths that can be opened for writing. *)
Variable can_write : str -> bool.

(** Lines 94-147: [main] from the call of [replace_strings] on. *)
Definition main_report (input_details : dict str) (source_text : str)
    (replace_list replacement_list : list str) : io unit :=
  '(modified_text, replace_summary, replace_details) <-
    lift (replace_strings_call source_text replace_list replacement_list
            (dict_get input_details (lit "Search Prefix"))
            (dict_get input_details (lit "Search Suffix"))) ;;
  let summary_text :=
    newline ++ lit "Input Details" ++ newline ++
    tabulate (details_items input_details) [] ++ newline in
  let summary_text :=
    summary_text ++ newline ++ lit "Replacement Summary" ++ newline ++
    tabulate (summary_items replace_summary) [] ++ newline in
  header_details <-
    match replace_details with
    | [] => raise IndexError
    | _ :: _ => ret detail_keys
    end ;;
  let rows_details := map detail_values replace_details in
  let summary_text :=
    summary_text ++ newline ++ tabulate rows_details header_details in
  save_file <- input ;;
  save_summary <- input ;;
  _ <-
    (if str_eqb save_summary (lit "y")
     then match dict_get input_details (lit "Source Text File") with
          | None => raise AttributeError
          | Some path =>
              write_file can_write (summary_path path) summary_text
          end
     else ret tt) ;;
  if str_eqb save_file (lit "y")
  then match dict_get input_details (lit "Source Text File") with
       | None => raise AttributeError
       | Some path => write_file can_write (new_path path) modified_text
       end
  else ret tt.

(** [main()], lines 79-147. *)
Definition main : io unit :=
  '(input_details, source_text, replace_list, replacement_list) <-
    get_user_input read_file ;;
  main_report input_details source_text replace_list replacement_list.

(** The text [summary_text] as lines 101-111 have built it once
    [replace_details[0]] has been found. *)
Definition report_text (input_details : dict str)
    (replace_summary : summary) (replace_details : list detail) : str :=
  let summary_text :=
    newline ++ lit "Input Details" ++ newline ++
    tabulate (details_items input_details) [] ++ newline in
  let summary_text :=
    summary_text ++ newline ++ lit "Replacement Summary" ++ newline ++
    tabulate (summary_items replace_summary) [] ++ newline in
  summary_text ++ newline ++
  tabulate (map detail_values replace_details) detail_keys.

End Main.

(** ** Notions the statements about the interactive part use *)

(** A line without a line boundary. *)
Definition boundary_free (line : str) : Prop :=
  Forall (fun c => line_boundary c = false) line.

(** The dictionary [details] at the end of [get_user_input], from what was
    accepted at the prompts. *)
Definition input_details_of (method name source_path from_list_path
    to_list_path to_prefix to_suffix search_prefix search_suffix : str)
    : dict str :=
  let d := dict_set [] (lit "Replace Method") name in
  let d := dict_set d (lit "Source Text File") source_path in
  let d := dict_set d (lit "Replace List File") from_list_path in
  let d := if truthy (PyStr.count method (lit "l"))
           then dict_set d (lit "Replacement List File") to_list_path
           else d in
  let d := if truthy (PyStr.count method (lit "p"))
           then dict_set d (lit "Replacement Prefix") to_prefix else d in
  let d := if truthy (PyStr.count method (lit "s"))
           then dict_set d (lit "Replacement Suffix") to_suffix else d in
  let d := if negb (str_eqb search_prefix [])
           then dict_set d (lit "Search Prefix") search_prefix else d in
  if negb (str_eqb search_suffix [])
  then dict_set d (lit "Search Suffix") search_suffix else d.

(** What [details] holds under a key, the empty string when it holds
    nothing. *)
Definition recorded (details : dict str) (key : str) : str :=
  match dict_get details key with
  | Some v => v
  | None => []
  end.

(** The lines of the file whose path [details] holds under a key. *)
Definition recorded_lines (read_file : str -> option str)
    (details : dict str) (key : str) : list str :=
  match dict_get details key with
  | Some path =>
      match read_file path with
      | Some content => splitlines content
      | None => []
      end
  | None => []
  end.

(** What a record says about the document: the two scoped strings and the
    count. *)
Definition scoped_view (r : detail) : str * str * Z :=
  (Full_Search_String r, Full_Replace r, Instances r).

(** ** Sessions at the console *)

Module Session.

(** The files of the sessions: the source text of the scenario, also in a
    directory with a dot in its name, the two lists of the module's
    documentation, a list with a repeated line and an empty file. *)
Definition read_file (path : str) : option str :=
  if str_eqb path (lit "source.txt") then Some Scenario.source_text
  else if str_eqb path (lit "dir.x/source.txt")
  then Some Scenario.source_text
  else if str_eqb path (lit "from.txt")
  then Some (lit "word1" ++ newline ++ lit "word2" ++ newline ++
             lit "word3" ++ newline)
  else if str_eqb path (lit "to.txt")
  then Some (lit "new_word1" ++ newline ++ lit "new_word2" ++ newline ++
             lit "new_word3")
  else if str_eqb path (lit "twice.txt")
  then Some (lit "word1" ++ newline ++ lit "word1")
  else if str_eqb path (lit "empty.txt") then Some []
  else None.

Definition tabulate (rows : list (list value)) (headers : list str) : str :=
  lit "table".

(** Every path can be written to except those in the directory dir_mod.x,
    which does not exist. *)
Definition can_write (path : str) : bool :=
  negb (startswith path (lit "dir_mod.x/")).

(** Method lps after a wrong method and a wrong path, the source path in
    double quotes, prefix p_ and suffix _s, a double quote as search prefix
    and suffix, and both files saved. *)
Definition answers_scoped : list str :=
  [lit "x"; lit "lps"; lit "missing.txt";
   double_quote ++ lit "source.txt" ++ double_quote;
   lit "from.txt"; lit "to.txt"; lit "p_"; lit "_s";
   double_quote; double_quote; lit "n"; lit "y"; lit "y"].

(** Method l with no search prefix and no search suffix. *)
Definition answers_unscoped : list str :=
  [lit "l"; lit "source.txt"; lit "from.txt"; lit "to.txt";
   []; []; lit "n"; lit "y"; lit "y"].

(** Method l with an empty 'to' file. *)
Definition answers_empty_to : list str :=
  [lit "l"; lit "source.txt"; lit "from.txt"; lit "empty.txt";
   double_quote; double_quote; lit "n"; lit "y"; lit "y"].

(** As [answers_scoped], the source file being the one in dir.x. *)
Definition answers_in_dir : list str :=
  [lit "lps"; lit "dir.x/source.txt";
   lit "from.txt"; lit "to.txt"; lit "p_"; lit "_s";
   double_quote; double_quote; lit "n"; lit "y"; lit "y"].

(** Method ps: no 'to' file, prefix p_ and suffix _s around the 'from'
    list. *)
Definition answers_affixed : list str :=
  [lit "ps"; lit "source.txt"; lit "from.txt"; lit "p_"; lit "_s";
   double_quote; double_quote; lit "n"; lit "y"; lit "y"].

(** Method p with a 'from' file that repeats a line. *)
Definition answers_twice : list str :=
  [lit "p"; lit "source.txt"; lit "twice.txt"; lit "from.txt"].

End Session.

(** ** Facts about the host strings *)

Section ScanFacts.

Lemma startswith_nil (s : str) : startswith s [] = true.
Proof. destruct s; reflexivity. Qed.

Lemma startswith_of_nil (pat : str) : startswith [] pat = true -> pat = [].
Proof. destruct pat; simpl; [reflexivity | discriminate]. Qed.

Lemma startswith_cons (c p : ascii) (s pat : str) :
  startswith (c :: s) (p :: pat) = true <-> c = p /\ startswith s pat = true.
Proof.
  simpl. rewrite andb_true_iff, Ascii.eqb_eq. reflexivity.
Qed.

Lemma startswith_split (s pat : str) :
  startswith s pat = true -> s = pat ++ skipn (List.length pat) s.
Proof.
  revert s. induction pat as [|p pat IH]; intros s H.
  - reflexivity.
  - destruct s as [|c s]; [discriminate|].
    apply startswith_cons in H. destruct H as [-> H].
    simpl. f_equal. apply IH, H.
Qed.

Lemma count_scan_skip (sub : str) (s : str) :
  forall k, count_scan sub k s = count_scan sub O (skipn k s).
Proof.
  induction s as [|c s IH]; intros [|k]; try reflexivity.
  simpl skipn. rewrite <- IH. reflexivity.
Qed.

Lemma count_scan_nonneg (s sub : str) : 0 <= PyStr.count s sub.
Proof. unfold PyStr.count. destruct sub; lia. Qed.

Lemma replace_scan_zero (old new : str) (s : str) :
  replace_scan old new O O s = s.
Proof. destruct s; reflexivity. Qed.

(** A limit that is at least the number of matches replaces them all. *)
Lemma replace_scan_enough (old new : str) (s : str) :
  forall n k, (count_scan old k s <= n)%nat ->
    replace_scan old new n k s = Spec.replace_all_scan old new k s.
Proof.
  induction s as [|c s IH]; intros n k Hn; [reflexivity|].
  destruct k as [|k];
    cbn [count_scan replace_scan Spec.replace_all_scan] in *.
  - destruct n as [|n].
    + destruct (startswith (c :: s) old) eqn:E; [lia|].
      f_equal. rewrite <- (IH O O Hn). symmetry. apply replace_scan_zero.
    + destruct (startswith (c :: s) old) eqn:E.
      * f_equal. apply IH. lia.
      * f_equal. apply IH. exact Hn.
  - apply IH. exact Hn.
Qed.

Lemma interleave_all (new s : str) :
  interleave new (S (List.length s)) s = Spec.insert_around new s.
Proof.
  unfold Spec.insert_around.
  induction s as [|c s IH]; simpl.
  - reflexivity.
  - simpl in IH. rewrite IH. rewrite <- !app_assoc. reflexivity.
Qed.

(** The limit the engine passes to [replace], the count it has just taken,
    makes [replace] rewrite every occurrence. *)
Lemma replace_count_all (s old new : str) :
  PyStr.replace s old new (PyStr.count s old) = Spec.replace_all s old new.
Proof.
  unfold PyStr.replace, PyStr.count, Spec.replace_all.
  destruct old as [|o old].
  - replace (Z.of_nat (List.length s) + 1 <? 0) with false
      by (symmetry; apply Z.ltb_ge; lia).
    replace (Z.to_nat (Z.of_nat (List.length s) + 1)) with (S (List.length s))
      by lia.
    apply interleave_all.
  - replace (Z.of_nat (count_scan (o :: old) 0 s) <? 0) with false
      by (symmetry; apply Z.ltb_ge; lia).
    rewrite Nat2Z.id. apply replace_scan_enough. lia.
Qed.

(** Without a match the scan returns its input. *)
Lemma replace_all_scan_none (old new : str) (s : str) :
  count_scan old O s = O -> Spec.replace_all_scan old new O s = s.
Proof.
  intros H. rewrite <- (replace_scan_enough old new s O O) by lia.
  apply replace_scan_zero.
Qed.

(** The scans, one position at a time: at a match the count goes up by one
    and the scan resumes past the matched span; elsewhere it moves on by one
    character. *)
Lemma count_scan_step (sub : str) (c : ascii) (s : str) :
  sub <> [] ->
  count_scan sub O (c :: s) =
  if startswith (c :: s) sub
  then S (count_scan sub O (skipn (List.length sub) (c :: s)))
  else count_scan sub O s.
Proof.
  intros Hsub. cbn [count_scan].
  destruct (startswith (c :: s) sub); [|reflexivity].
  rewrite count_scan_skip.
  destruct sub as [|p sub]; [congruence | reflexivity].
Qed.

Lemma join_cons (sep p : str) (rest : list str) :
  rest <> [] -> join sep (p :: rest) = p ++ sep ++ join sep rest.
Proof. destruct rest; [congruence | reflexivity]. Qed.

(** Rewriting keeps the text between the matches: the document is these
    pieces joined by [old], the result the same pieces joined by [new], and
    there is one piece more than there are matches. *)
Lemma replace_all_scan_join (old new : str) (s : str) :
  old <> [] ->
  forall k, exists gaps,
    List.length gaps = S (count_scan old k s) /\
    skipn k s = join old gaps /\
    Spec.replace_all_scan old new k s = join new gaps.
Proof.
  intros Hold. induction s as [|c s IH]; intros k.
  - exists [[]]. destruct k; repeat split; reflexivity.
  - destruct k as [|k]; cbn [count_scan Spec.replace_all_scan skipn].
    + destruct (startswith (c :: s) old) eqn:E.
      * destruct (IH (Nat.pred (List.length old))) as (gaps & Hlen & Hs & Hr).
        exists ([] :: gaps).
        assert (Hgaps : gaps <> []) by (destruct gaps; discriminate).
        rewrite !join_cons by exact Hgaps. rewrite <- Hs, <- Hr.
        repeat split; [cbn [List.length]; lia|].
        destruct old as [|o old]; [congruence|].
        exact (startswith_split _ _ E).
      * destruct (IH O) as (gaps & Hlen & Hs & Hr).
        destruct gaps as [|g gs]; [discriminate|].
        exists ((c :: g) :: gs). cbn [skipn] in Hs.
        repeat split; [exact Hlen | |].
        -- rewrite Hs. destruct gs; reflexivity.
        -- rewrite Hr. destruct gs; reflexivity.
    + apply IH.
Qed.

Lemma insert_around_join (new s : str) :
  Spec.insert_around new s =
  new ++ join new (map (fun c => [c]) s ++ [[]]).
Proof.
  unfold Spec.insert_around.
  induction s as [|c s IH]; cbn [flat_map map app].
  - cbn. rewrite app_nil_r. reflexivity.
  - rewrite join_cons by (destruct s; discriminate).
    rewrite <- !app_assoc, IH. reflexivity.
Qed.

Lemma join_chars (s : str) : join [] (map (fun c => [c]) s ++ [[]]) = s.
Proof.
  induction s as [|c s IH]; [reflexivity|].
  cbn [map app]. rewrite join_cons by (destruct s; discriminate).
  rewrite IH. reflexivity.
Qed.

Lemma replace_all_join (doc old new : str) :
  exists gaps,
    Z.of_nat (List.length gaps) = PyStr.count doc old + 1 /\
    doc = join old gaps /\
    Spec.replace_all doc old new = join new gaps.
Proof.
  destruct old as [|o old].
  - exists ([] :: map (fun c => [c]) doc ++ [[]]).
    cbn [PyStr.count Spec.replace_all].
    rewrite !join_cons by (destruct doc; discriminate).
    rewrite join_chars, insert_around_join.
    repeat split.
    cbn [List.length]. rewrite length_app, length_map. cbn [List.length]. lia.
  - destruct (replace_all_scan_join (o :: old) new doc ltac:(discriminate) O)
      as (gaps & Hlen & Hs & Hr).
    exists gaps. cbn [PyStr.count Spec.replace_all skipn] in *.
    repeat split; [lia | exact Hs | exact Hr].
Qed.

End ScanFacts.

(** ** Occurrences and the scans *)

Section OccursFacts.

Lemma occurs_nil_inv (pat : str) : occurs pat [] -> pat = [].
Proof. intros H. inversion H; subst. apply startswith_of_nil; assumption. Qed.

Lemma occurs_cons_inv (pat : str) (c : ascii) (s : str) :
  occurs pat (c :: s) -> startswith (c :: s) pat = true \/ occurs pat s.
Proof. intros H. inversion H; subst; [left | right]; assumption. Qed.

Lemma occurs_skipn (pat : str) (k : nat) :
  forall s, occurs pat (skipn k s) -> occurs pat s.
Proof.
  induction k as [|k IH]; intros s H; [exact H|].
  destruct s as [|c s]; [exact H|].
  apply occurs_later, IH, H.
Qed.

(** [count] is zero exactly when the pattern occurs nowhere. *)
Lemma count_scan_zero_iff (sub : str) (s : str) :
  sub <> [] -> (count_scan sub O s = O <-> ~ occurs sub s).
Proof.
  intros Hsub. induction s as [|c s IH].
  - split; [|reflexivity].
    intros _ H. apply Hsub, occurs_nil_inv, H.
  - cbn [count_scan]. destruct (startswith (c :: s) sub) eqn:E.
    + split; [discriminate|].
      intros H. exfalso. apply H, occurs_here, E.
    + rewrite IH. split.
      * intros H Hocc. apply occurs_cons_inv in Hocc.
        destruct Hocc as [Hocc|Hocc]; [congruence | exact (H Hocc)].
      * intros H Hocc. apply H, occurs_later, Hocc.
Qed.

Lemma count_zero_iff (s sub : str) :
  sub <> [] -> (PyStr.count s sub = 0 <-> ~ occurs sub s).
Proof.
  intros Hsub. rewrite <- (count_scan_zero_iff sub s Hsub).
  unfold PyStr.count. destruct sub as [|p sub]; [congruence|]. lia.
Qed.

Lemma diverge_startswith (a b : str) :
  diverge a b = true -> forall y, startswith (a ++ y) b = false.
Proof.
  revert b. induction a as [|x a IH]; intros [|y0 b] H y;
    cbn [diverge] in H; try discriminate.
  cbn [app startswith].
  destruct (Ascii.eqb x y0) eqn:E; [|reflexivity].
  cbn [andb]. apply IH, H.
Qed.

Lemma existsb_eqb_false (x : ascii) (l : str) :
  existsb (Ascii.eqb x) l = false <-> ~ In x l.
Proof.
  split.
  - intros H Hin.
    assert (Ht : existsb (Ascii.eqb x) l = true).
    { apply existsb_exists. exists x.
      split; [exact Hin | apply Ascii.eqb_refl]. }
    congruence.
  - intros H. destruct (existsb (Ascii.eqb x) l) eqn:E; [|reflexivity].
    exfalso. apply existsb_exists in E. destruct E as (y & Hy & Heq).
    apply Ascii.eqb_eq in Heq. subst y. exact (H Hy).
Qed.

Lemma apart_inv (new pat : str) :
  apart new pat = true ->
  exists d nt c pt,
    new = d :: nt /\ pat = c :: pt /\ ~ In d pt /\ ~ In c nt /\
    forall y, startswith (new ++ y) pat = false.
Proof.
  destruct new as [|d nt], pat as [|c pt]; cbn [apart]; try discriminate.
  rewrite !andb_true_iff, !negb_true_iff, !existsb_eqb_false.
  intros [[Hd Hc] Hdiv]. exists d, nt, c, pt.
  repeat split; try assumption. apply diverge_startswith, Hdiv.
Qed.

(** Strings without a common character cannot meet. *)
Lemma no_common_char_apart (new pat : str) :
  new <> [] -> pat <> [] -> no_common_char new pat -> apart new pat = true.
Proof.
  destruct new as [|d nt], pat as [|c pt]; try congruence.
  intros _ _ Hno. cbn [apart diverge].
  rewrite !andb_true_iff, !negb_true_iff, !existsb_eqb_false.
  repeat split.
  - intros Hin. apply (Hno d); [left; reflexivity | right; exact Hin].
  - intros Hin. apply (Hno c); [right; exact Hin | left; reflexivity].
  - destruct (Ascii.eqb d c) eqn:E; [|reflexivity].
    apply Ascii.eqb_eq in E. subst c.
    exfalso. apply (Hno d); left; reflexivity.
Qed.

Section Apart.
Variables (d : ascii) (nt : str) (c : ascii) (pt : str).
Hypothesis first_of_new : ~ In d pt.
Hypothesis first_of_pat : ~ In c nt.
Hypothesis neither_starts :
  forall y, startswith ((d :: nt) ++ y) (c :: pt) = false.

(** No occurrence of the pattern starts inside a copy of the written
    string. *)
Lemma occurs_past_tail (a rest : str) :
  (forall x, In x a -> In x nt) ->
  occurs (c :: pt) (a ++ rest) -> occurs (c :: pt) rest.
Proof using first_of_pat.
  induction a as [|n0 a IH]; intros Ha H; [exact H|].
  apply occurs_cons_inv in H. destruct H as [H|H].
  - exfalso. apply startswith_cons in H. destruct H as [-> _].
    apply first_of_pat, Ha. left. reflexivity.
  - apply IH; [|exact H]. intros x Hx. apply Ha. right. exact Hx.
Qed.

Lemma occurs_past (rest : str) :
  occurs (c :: pt) ((d :: nt) ++ rest) -> occurs (c :: pt) rest.
Proof using first_of_pat neither_starts.
  intros H. pose proof (neither_starts rest) as E.
  cbn [app] in H, E. apply occurs_cons_inv in H. destruct H as [H|H].
  - congruence.
  - apply (occurs_past_tail nt); [auto | exact H].
Qed.

(** A string without the first character of the written string that starts
    the rewritten text starts the original text as well. *)
Lemma startswith_rewritten (old : str) (s : str) :
  forall k p, ~ In d p ->
    startswith (Spec.replace_all_scan old (d :: nt) k s) p = true ->
    startswith (skipn k s) p = true.
Proof using Type.
  induction s as [|c0 s IH]; intros k p Hp H.
  - destruct k; exact H.
  - destruct k as [|k]; cbn [Spec.replace_all_scan skipn] in H |- *.
    + destruct (startswith (c0 :: s) old) eqn:E.
      * destruct p as [|q p]; [reflexivity|]. exfalso.
        cbn [app] in H.
        apply startswith_cons in H. destruct H as [<- _].
        apply Hp. left. reflexivity.
      * destruct p as [|q p]; [reflexivity|].
        apply startswith_cons in H. destruct H as [<- H].
        apply startswith_cons. split; [reflexivity|].
        apply (IH O p); [|exact H].
        intros Hin. apply Hp. right. exact Hin.
    + apply IH; assumption.
Qed.

(** Rewriting creates no occurrence of the pattern. *)
Lemma occurs_rewritten (old : str) (s : str) :
  forall k, occurs (c :: pt) (Spec.replace_all_scan old (d :: nt) k s) ->
    occurs (c :: pt) (skipn k s).
Proof using first_of_new first_of_pat neither_starts.
  induction s as [|c0 s IH]; intros k H.
  - destruct k; exact H.
  - destruct k as [|k].
    + cbn [Spec.replace_all_scan skipn] in *.
      destruct (startswith (c0 :: s) old) eqn:E.
      * apply occurs_later.
        apply (occurs_skipn (c :: pt) (Nat.pred (List.length old))).
        apply IH. apply occurs_past. exact H.
      * apply occurs_cons_inv in H. destruct H as [H|H].
        -- apply occurs_here.
           apply startswith_cons in H. destruct H as [-> H].
           apply startswith_cons. split; [reflexivity|].
           exact (startswith_rewritten old s O pt first_of_new H).
        -- apply occurs_later. apply (IH O). exact H.
    + cbn [Spec.replace_all_scan skipn] in *. apply IH, H.
Qed.

(** After the rewriting the pattern that was searched for is gone. *)
Lemma rewritten_clean_apart (s : str) :
  forall k,
    ~ occurs (c :: pt) (Spec.replace_all_scan (c :: pt) (d :: nt) k s).
Proof using first_of_new first_of_pat neither_starts.
  induction s as [|c0 s IH]; intros k H.
  - destruct k; apply occurs_nil_inv in H; discriminate.
  - destruct k as [|k].
    + cbn [Spec.replace_all_scan] in H.
      destruct (startswith (c0 :: s) (c :: pt)) eqn:E.
      * apply (IH (Nat.pred (List.length (c :: pt)))).
        apply occurs_past. exact H.
      * apply occurs_cons_inv in H. destruct H as [H|H].
        -- apply startswith_cons in H. destruct H as [-> H].
           apply (startswith_rewritten (c :: pt) s O pt first_of_new) in H.
           cbn [skipn] in H.
           assert (Ht : startswith (c :: s) (c :: pt) = true).
           { apply startswith_cons. split; [reflexivity | exact H]. }
           congruence.
        -- exact (IH O H).
    + cbn [Spec.replace_all_scan] in H. exact (IH k H).
Qed.

End Apart.

(** After the rewriting, the pattern that was searched for is gone, when the
    replacement is not empty and shares no character with it. *)
Lemma rewritten_clean (old new : str) (s : str) :
  old <> [] -> new <> [] -> no_common_char new old ->
  forall k, ~ occurs old (Spec.replace_all_scan old new k s).
Proof.
  intros Hold Hnew Hno k.
  destruct (apart_inv new old (no_common_char_apart new old Hnew Hold Hno))
    as (d & nt & c & pt & -> & -> & Hd & Hc & Hdiv).
  apply rewritten_clean_apart; assumption.
Qed.

End OccursFacts.

(** ** Facts about [sorted] and [sum] *)

Section SortedFacts.
Context {A : Type} (key : A -> Z).

Lemma insert_perm (x : A) (l : list A) :
  Permutation (PyList.insert key x l) (x :: l).
Proof.
  induction l as [|y l IH]; simpl; [reflexivity|].
  destruct (key x <=? key y); [reflexivity|].
  rewrite IH. apply perm_swap.
Qed.

Lemma sorted_perm (l : list A) : Permutation (PyList.sorted key l) l.
Proof.
  induction l as [|x l IH]; simpl; [reflexivity|].
  rewrite insert_perm. apply perm_skip, IH.
Qed.

Lemma insert_ascending (x : A) (l : list A) :
  StronglySorted (PyList.key_le key) l -> StronglySorted (PyList.key_le key) (PyList.insert key x l).
Proof.
  induction l as [|y l IH]; intros Hs; simpl.
  - constructor; constructor.
  - inversion Hs as [|? ? Hl Hy]; subst.
    destruct (key x <=? key y) eqn:E.
    + constructor; [exact Hs|].
      apply Z.leb_le in E. constructor; [exact E|].
      eapply Forall_impl; [|exact Hy].
      unfold PyList.key_le. intros; lia.
    + constructor; [apply IH, Hl|].
      apply Z.leb_gt in E.
      eapply Permutation_Forall; [symmetry; apply insert_perm|].
      constructor; [unfold PyList.key_le; lia | exact Hy].
Qed.

Lemma sorted_ascending (l : list A) :
  StronglySorted (PyList.key_le key) (PyList.sorted key l).
Proof.
  induction l as [|x l IH]; simpl; [constructor|].
  apply insert_ascending, IH.
Qed.

(** Elements with one key keep their order. *)
Lemma insert_filter_key (k : Z) (x : A) (l : list A) :
  filter (fun a => key a =? k) (PyList.insert key x l) =
  filter (fun a => key a =? k) (x :: l).
Proof.
  induction l as [|y l IH]; [reflexivity|].
  cbn [PyList.insert]. destruct (key x <=? key y) eqn:E; [reflexivity|].
  apply Z.leb_gt in E. cbn [filter] in *. rewrite IH.
  destruct (key x =? k) eqn:Ex, (key y =? k) eqn:Ey; try reflexivity.
  apply Z.eqb_eq in Ex, Ey. lia.
Qed.

Lemma sorted_stable (k : Z) (l : list A) :
  filter (fun a => key a =? k) (PyList.sorted key l) =
  filter (fun a => key a =? k) l.
Proof.
  induction l as [|x l IH]; [reflexivity|].
  cbn [PyList.sorted fold_right]. rewrite insert_filter_key.
  cbn [filter]. fold (PyList.sorted key l). rewrite IH. reflexivity.
Qed.

Lemma sorted_length (l : list A) :
  List.length (PyList.sorted key l) = List.length l.
Proof. apply Permutation_length, sorted_perm. Qed.

End SortedFacts.

Section SumFacts.
Context {A : Type}.

Lemma sum_bool_from (l : list bool) :
  forall acc, fold_left (fun a b => a + Z.b2z b) l acc =
              acc + PyList.sum_bool l.
Proof.
  unfold PyList.sum_bool.
  induction l as [|b l IH]; intros acc; simpl; [lia|].
  rewrite (IH (acc + Z.b2z b)), (IH (Z.b2z b)). lia.
Qed.

Lemma sum_bool_cons (b : bool) (l : list bool) :
  PyList.sum_bool (b :: l) = Z.b2z b + PyList.sum_bool l.
Proof. unfold PyList.sum_bool at 1. simpl. apply sum_bool_from. Qed.

(** Summing the truth values of a test counts the elements that pass it. *)
Lemma sum_bool_filter (f : A -> bool) (l : list A) :
  PyList.sum_bool (map f l) = Z.of_nat (List.length (filter f l)).
Proof.
  induction l as [|x l IH]; [reflexivity|].
  cbn [map filter]. rewrite sum_bool_cons, IH.
  destruct (f x); cbn [Z.b2z List.length]; lia.
Qed.

Lemma filter_length_perm (f : A -> bool) (l l' : list A) :
  Permutation l l' ->
  List.length (filter f l) = List.length (filter f l').
Proof.
  induction 1 as [|x l l' _ IH|x y l|l l' l'' _ IH1 _ IH2]; simpl.
  - reflexivity.
  - destruct (f x); simpl; congruence.
  - destruct (f x), (f y); reflexivity.
  - congruence.
Qed.

Lemma sum_perm (g : A -> Z) (l l' : list A) :
  Permutation l l' ->
  fold_right Z.add 0 (map g l) = fold_right Z.add 0 (map g l').
Proof.
  induction 1 as [|x l l' _ IH|x y l|l l' l'' _ IH1 _ IH2]; simpl; lia.
Qed.

End SumFacts.

(** ** The loop of [replace_strings] against the specification's processing *)

Section EngineFacts.
Variables (prefix suffix : str).

Lemma loop_body_text (st : loop_state) (from_string to_string : str) :
  text (loop_body prefix suffix st (from_string, to_string)) =
  if 0 <? PyStr.count (text st) (prefix ++ from_string ++ suffix)
  then Spec.replace_all (text st) (prefix ++ from_string ++ suffix)
                        (prefix ++ to_string ++ suffix)
  else text st.
Proof.
  cbn [loop_body text]. rewrite Z.gtb_ltb.
  destruct (0 <? _); [apply replace_count_all | reflexivity].
Qed.

Lemma loop_body_count (st : loop_state) (from_string to_string : str) :
  count (loop_body prefix suffix st (from_string, to_string)) =
  count st + PyStr.count (text st) (prefix ++ from_string ++ suffix).
Proof.
  cbn [loop_body count]. rewrite Z.gtb_ltb.
  pose proof (count_scan_nonneg (text st) (prefix ++ from_string ++ suffix)).
  destruct (0 <? _) eqn:E; [reflexivity|].
  apply Z.ltb_ge in E. lia.
Qed.

Lemma loop_body_details (st : loop_state) (from_string to_string : str) :
  details (loop_body prefix suffix st (from_string, to_string)) =
  details st ++
  [mk_detail from_string (prefix ++ from_string ++ suffix)
             to_string (prefix ++ to_string ++ suffix)
             (PyStr.count (text st) (prefix ++ from_string ++ suffix))].
Proof. reflexivity. Qed.

Lemma loop_body_index (st : loop_state) (pair : str * str) :
  index (loop_body prefix suffix st pair) = index st + 1.
Proof. destruct pair. reflexivity. Qed.

(** One term rewrites the scoped search string and nothing else: the
    document is some pieces joined by the scoped search string, one piece
    more than the count, and the new document is the same pieces joined by
    the scoped replacement. *)
Lemma loop_body_join (st : loop_state) (from_string to_string : str) :
  exists gaps,
    Z.of_nat (List.length gaps) =
      PyStr.count (text st) (prefix ++ from_string ++ suffix) + 1 /\
    text st = join (prefix ++ from_string ++ suffix) gaps /\
    text (loop_body prefix suffix st (from_string, to_string)) =
      join (prefix ++ to_string ++ suffix) gaps.
Proof.
  rewrite loop_body_text.
  destruct (replace_all_join (text st) (prefix ++ from_string ++ suffix)
              (prefix ++ to_string ++ suffix)) as (gaps & Hlen & Hs & Hr).
  exists gaps. repeat split; [exact Hlen | exact Hs |].
  destruct (0 <? PyStr.count (text st) (prefix ++ from_string ++ suffix))
    eqn:E; [exact Hr|].
  pose proof (count_scan_nonneg (text st) (prefix ++ from_string ++ suffix)).
  destruct gaps as [|g [|g' gs]]; cbn [List.length] in Hlen; try lia.
  exact Hs.
Qed.

(** The loop computes the document and the records of section 4.2, and its
    two counters are the number of records and the sum of their counts. *)
Lemma run_loop_substitute (from_list : list str) :
  forall (to_list : list str) (st : loop_state),
    let result :=
      Spec.substitute prefix suffix (text st) from_list to_list in
    let st' := run_loop prefix suffix (PyList.zip from_list to_list) st in
    text st' = fst result /\
    details st' = details st ++ snd result /\
    index st' = index st + Z.of_nat (List.length (snd result)) /\
    count st' = count st + fold_right Z.add 0 (map Instances (snd result)).
Proof.
  induction from_list as [|f fs IH]; intros to_list st.
  - cbn. rewrite app_nil_r. repeat split; lia.
  - destruct to_list as [|t ts].
    + cbn. rewrite app_nil_r. repeat split; lia.
    + specialize (IH ts (loop_body prefix suffix st (f, t))).
      rewrite loop_body_text, loop_body_details, loop_body_index,
        loop_body_count in IH.
      cbn zeta in IH. destruct IH as (Ht & Hd & Hi & Hc).
      cbn [Spec.substitute PyList.zip combine run_loop fold_left].
      change (fold_left (loop_body prefix suffix) (combine fs ts))
        with (run_loop prefix suffix (PyList.zip fs ts)).
      destruct (Spec.substitute prefix suffix _ fs ts) as [final records].
      cbn [fst snd] in *. rewrite Ht, Hd, Hi, Hc, <- app_assoc.
      cbn [map fold_right List.length Instances app].
      repeat split; lia.
Qed.

Lemma substitute_length (from_list : list str) :
  forall (to_list : list str) (doc : str),
    List.length (snd (Spec.substitute prefix suffix doc from_list to_list)) =
    Nat.min (List.length from_list) (List.length to_list).
Proof.
  induction from_list as [|f fs IH]; intros [|t ts] doc; try reflexivity.
  cbn [Spec.substitute].
  specialize (IH ts
    (if 0 <? PyStr.count doc (prefix ++ f ++ suffix)
     then Spec.replace_all doc (prefix ++ f ++ suffix) (prefix ++ t ++ suffix)
     else doc)).
  destruct (Spec.substitute prefix suffix _ fs ts) as [final records].
  cbn [snd List.length] in *. rewrite IH. reflexivity.
Qed.

Lemma substitute_nonneg (from_list : list str) :
  forall (to_list : list str) (doc : str),
    Forall (fun r => 0 <= Instances r)
           (snd (Spec.substitute prefix suffix doc from_list to_list)).
Proof.
  induction from_list as [|f fs IH]; intros [|t ts] doc;
    try (cbn; constructor; fail).
  cbn [Spec.substitute].
  specialize (IH ts
    (if 0 <? PyStr.count doc (prefix ++ f ++ suffix)
     then Spec.replace_all doc (prefix ++ f ++ suffix) (prefix ++ t ++ suffix)
     else doc)).
  destruct (Spec.substitute prefix suffix _ fs ts) as [final records].
  cbn [snd] in *. constructor; [apply count_scan_nonneg | exact IH].
Qed.

Lemma summarise_perm (l l' : list detail) :
  Permutation l l' -> Spec.summarise l = Spec.summarise l'.
Proof.
  intros H. unfold Spec.summarise.
  rewrite (Permutation_length H), (sum_perm Instances l l' H),
    !(filter_length_perm _ l l' H).
  reflexivity.
Qed.

(** [replace_strings] returns the document of the specification's
    processing, the summary of its records, and its records sorted. *)
Lemma replace_strings_substitute (text0 : str) (from_list to_list : list str) :
  let result := Spec.substitute prefix suffix text0 from_list to_list in
  replace_strings text0 from_list to_list prefix suffix =
  (fst result,
   Spec.summarise (PyList.sorted Instances (snd result)),
   PyList.sorted Instances (snd result)).
Proof.
  intros result. unfold replace_strings.
  destruct (run_loop_substitute from_list to_list (init_state text0))
    as (Ht & Hd & Hi & Hc).
  cbn [init_state text details index count app] in Ht, Hd, Hi, Hc.
  fold result in Ht, Hd, Hi, Hc. rewrite Ht, Hd, Hi, Hc.
  f_equal. f_equal. unfold Spec.summarise. f_equal.
  - rewrite sorted_length. lia.
  - rewrite sum_bool_filter. do 2 f_equal.
    apply filter_ext. intros r. apply Z.gtb_ltb.
  - apply sum_bool_filter.
  - rewrite (sum_perm Instances _ _ (sorted_perm Instances (snd result))).
    lia.
  - rewrite sum_bool_filter. do 2 f_equal.
    apply filter_ext. intros r. apply Z.gtb_ltb.
Qed.

Lemma substitute_cons (doc f t : str) (fs ts : list str) :
  Spec.substitute prefix suffix doc (f :: fs) (t :: ts) =
  let fullSearch := prefix ++ f ++ suffix in
  let fullReplace := prefix ++ t ++ suffix in
  let rest :=
    Spec.substitute prefix suffix
      (if 0 <? PyStr.count doc fullSearch
       then Spec.replace_all doc fullSearch fullReplace else doc) fs ts in
  (fst rest,
   mk_detail f fullSearch t fullReplace (PyStr.count doc fullSearch)
     :: snd rest).
Proof.
  cbn [Spec.substitute]. cbn zeta.
  destruct (Spec.substitute prefix suffix _ fs ts). reflexivity.
Qed.

(** The records name the paired terms, in list order. *)
Lemma substitute_terms (from_list : list str) :
  forall (to_list : list str) (doc : str),
    map (fun r => (Original_String r, New_String r))
        (snd (Spec.substitute prefix suffix doc from_list to_list)) =
    combine from_list to_list.
Proof.
  induction from_list as [|f fs IH]; intros [|t ts] doc; try reflexivity.
  rewrite substitute_cons. cbn. f_equal. apply IH.
Qed.

(** The full strings of a record are its terms inside the scope affixes. *)
Lemma substitute_scoped (from_list : list str) :
  forall (to_list : list str) (doc : str),
    Forall (fun r =>
              Full_Search_String r = prefix ++ Original_String r ++ suffix /\
              Full_Replace r = prefix ++ New_String r ++ suffix)
           (snd (Spec.substitute prefix suffix doc from_list to_list)).
Proof.
  induction from_list as [|f fs IH]; intros [|t ts] doc;
    try (cbn; constructor; fail).
  rewrite substitute_cons. cbn. constructor; [split; reflexivity | apply IH].
Qed.

(** What one term does to the document. *)
Lemma step_keeps_absent (doc old new pat : str) :
  old <> [] -> apart new pat = true ->
  ~ occurs pat doc ->
  ~ occurs pat (if 0 <? PyStr.count doc old
                then Spec.replace_all doc old new else doc).
Proof.
  intros Hold Hap Habs.
  destruct (0 <? PyStr.count doc old); [|exact Habs].
  destruct old as [|o old]; [congruence|]. cbn [Spec.replace_all].
  destruct (apart_inv new pat Hap)
    as (d & nt & c & pt & -> & -> & Hd & Hc & Hdiv).
  intros H. apply Habs.
  exact (occurs_rewritten d nt c pt Hd Hc Hdiv (o :: old) doc O H).
Qed.

Lemma step_clears (doc old new : str) :
  apart new old = true ->
  ~ occurs old (if 0 <? PyStr.count doc old
                then Spec.replace_all doc old new else doc).
Proof.
  intros Hap.
  destruct (apart_inv new old Hap)
    as (d & nt & c & pt & -> & -> & Hd & Hc & Hdiv).
  destruct (0 <? PyStr.count doc (c :: pt)) eqn:E.
  - cbn [Spec.replace_all]. apply rewritten_clean_apart; assumption.
  - apply count_zero_iff; [discriminate|].
    pose proof (count_scan_nonneg doc (c :: pt)). lia.
Qed.

(** After the pass no searched string is left in the document, when no
    written string can meet a searched string. *)
Lemma substitute_clean (pat : str) (from_list : list str) :
  forall (to_list : list str) (doc : str),
    (forall p, In p (scoped_pairs prefix suffix from_list to_list) ->
               fst p <> [] /\ apart (snd p) pat = true) ->
    ~ occurs pat doc \/
    In pat (map fst (scoped_pairs prefix suffix from_list to_list)) ->
    ~ occurs pat (fst (Spec.substitute prefix suffix doc from_list to_list)).
Proof.
  induction from_list as [|f fs IH]; intros [|t ts] doc Hp Hd;
    try (destruct Hd as [Hd|[]]; exact Hd).
  rewrite substitute_cons. cbn zeta. cbn [fst].
  destruct (Hp (scoped prefix suffix f, scoped prefix suffix t))
    as (Hf & Hap); [left; reflexivity|].
  cbn [fst snd] in Hf, Hap. unfold scoped in Hf, Hap.
  apply IH.
  - intros p Hin. apply Hp. right. exact Hin.
  - destruct Hd as [Hd|[Hd|Hd]].
    + left. apply step_keeps_absent; assumption.
    + left. cbn [fst] in Hd. unfold scoped in Hd. subst pat.
      apply step_clears; assumption.
    + right. exact Hd.
Qed.

(** A pass over a document in which no searched string is counted changes
    nothing and counts nothing. *)
Lemma substitute_nothing (from_list : list str) :
  forall (to_list : list str) (doc : str),
    (forall pat,
        In pat (map fst (scoped_pairs prefix suffix from_list to_list)) ->
        PyStr.count doc pat = 0) ->
    fst (Spec.substitute prefix suffix doc from_list to_list) = doc /\
    Forall (fun r => Instances r = 0)
           (snd (Spec.substitute prefix suffix doc from_list to_list)).
Proof.
  induction from_list as [|f fs IH]; intros [|t ts] doc Hp;
    try (split; [reflexivity | constructor]).
  rewrite substitute_cons. cbn zeta. cbn [fst snd].
  rewrite (Hp (prefix ++ f ++ suffix)) by (left; reflexivity).
  cbn [Z.ltb Z.compare].
  destruct (IH ts doc) as [Hdoc Hrec].
  { intros pat Hin. apply Hp. right. exact Hin. }
  split; [exact Hdoc | constructor; [reflexivity | exact Hrec]].
Qed.

(** And a pass that counts nothing ran over a document in which no searched
    string is counted. *)
Lemma substitute_found_nothing (from_list : list str) :
  forall (to_list : list str) (doc : str),
    Forall (fun r => Instances r = 0)
           (snd (Spec.substitute prefix suffix doc from_list to_list)) ->
    forall pat,
      In pat (map fst (scoped_pairs prefix suffix from_list to_list)) ->
      PyStr.count doc pat = 0.
Proof.
  induction from_list as [|f fs IH]; intros [|t ts] doc Hrec pat Hin;
    try (destruct Hin; fail).
  rewrite substitute_cons in Hrec. cbn zeta in Hrec. cbn [snd] in Hrec.
  inversion Hrec as [|r l Hr Hl]; subst. cbn [Instances] in Hr.
  rewrite Hr in Hl. cbn [Z.ltb Z.compare] in Hl.
  destruct Hin as [<-|Hin].
  - exact Hr.
  - exact (IH ts doc Hl pat Hin).
Qed.

(** Every occurrence that is rewritten is exchanged for one copy of the
    replacement: the lengths add up. *)
Lemma replace_all_scan_length (old new : str) (s : str) :
  old <> [] ->
  forall k,
    (List.length (Spec.replace_all_scan old new k s) +
     count_scan old k s * List.length old + Nat.min k (List.length s) =
     List.length s + count_scan old k s * List.length new)%nat.
Proof.
  intros Hold. induction s as [|c s IH]; intros k.
  - destruct k; reflexivity.
  - destruct k as [|k]; cbn [Spec.replace_all_scan count_scan].
    + destruct (startswith (c :: s) old) eqn:E.
      * specialize (IH (Nat.pred (List.length old))).
        apply startswith_split in E.
        apply (f_equal (@List.length ascii)) in E.
        rewrite length_app, length_skipn in E.
        destruct old as [|o old]; [congruence|].
        cbn [List.length Nat.pred] in *. rewrite length_app.
        nia.
      * specialize (IH O). cbn [List.length Nat.min] in *. nia.
    + specialize (IH k). cbn [List.length Nat.min] in *. nia.
Qed.

Lemma insert_around_length (new s : str) :
  (List.length (Spec.insert_around new s) =
   List.length s + S (List.length s) * List.length new)%nat.
Proof.
  unfold Spec.insert_around. rewrite length_app.
  induction s as [|c s IH]; cbn [flat_map List.length].
  - lia.
  - rewrite !length_app in *. cbn [List.length]. nia.
Qed.

Lemma step_length (doc old new : str) :
  Z.of_nat (List.length (if 0 <? PyStr.count doc old
                         then Spec.replace_all doc old new else doc)) +
  PyStr.count doc old * Z.of_nat (List.length old) =
  Z.of_nat (List.length doc) +
  PyStr.count doc old * Z.of_nat (List.length new).
Proof.
  destruct (0 <? PyStr.count doc old) eqn:E.
  - unfold PyStr.count, Spec.replace_all in *. destruct old as [|o old].
    + rewrite insert_around_length. cbn [List.length]. nia.
    + pose proof (replace_all_scan_length (o :: old) new doc
                    ltac:(discriminate) O) as H.
      cbn [Nat.min] in H. nia.
  - pose proof (count_scan_nonneg doc old).
    replace (PyStr.count doc old) with 0 by lia. lia.
Qed.

(** The weighted sums of the counts, by searched and by written length. *)
Lemma substitute_length_balance (from_list : list str) :
  forall (to_list : list str) (doc : str),
    let result := Spec.substitute prefix suffix doc from_list to_list in
    Z.of_nat (List.length (fst result)) +
    fold_right Z.add 0
      (map (fun r => Instances r *
                     Z.of_nat (List.length (Full_Search_String r)))
           (snd result)) =
    Z.of_nat (List.length doc) +
    fold_right Z.add 0
      (map (fun r => Instances r *
                     Z.of_nat (List.length (Full_Replace r)))
           (snd result)).
Proof.
  induction from_list as [|f fs IH]; intros [|t ts] doc;
    try (cbn; lia).
  cbn zeta. rewrite substitute_cons. cbn zeta.
  cbn [fst snd map fold_right Instances Full_Search_String Full_Replace].
  set (doc' := if 0 <? PyStr.count doc (prefix ++ f ++ suffix)
              then _ else doc).
  assert (Hstep :
    Z.of_nat (List.length doc') +
    PyStr.count doc (prefix ++ f ++ suffix) *
      Z.of_nat (List.length (prefix ++ f ++ suffix)) =
    Z.of_nat (List.length doc) +
    PyStr.count doc (prefix ++ f ++ suffix) *
      Z.of_nat (List.length (prefix ++ t ++ suffix)))
    by apply step_length.
  specialize (IH ts doc'). cbv zeta in IH. lia.
Qed.

Lemma run_loop_app (pairs1 pairs2 : list (str * str)) (st : loop_state) :
  run_loop prefix suffix (pairs1 ++ pairs2) st =
  run_loop prefix suffix pairs2 (run_loop prefix suffix pairs1 st).
Proof. apply fold_left_app. Qed.

End EngineFacts.

(** ** The substitution engine: the properties of sections 4.2 and 8 *)

(** C1.  The engine processes the paired terms strictly in list order.  For
    the term at index [i] it searches for
    [prefix ++ from_list[i] ++ suffix] in the current document, takes as
    [Instances] the number of non-overlapping occurrences, rewrites all of
    them to [prefix ++ to_list[i] ++ suffix] left to right when there is at
    least one, leaves the document as it is when there is none, and emits
    one record for the term either way: the loop's document and records are
    those of [Spec.substitute], the records carry the paired terms and
    their scoped forms, and [replace_strings] returns that document with the
    records sorted. *)
Theorem engine_processes_terms_in_order
    (text0 : str) (from_list to_list : list str) (prefix suffix : str) :
  let st := run_loop prefix suffix (PyList.zip from_list to_list)
                     (init_state text0) in
  let result := Spec.substitute prefix suffix text0 from_list to_list in
  text st = fst result /\
  details st = snd result /\
  map (fun r => (Original_String r, New_String r)) (details st) =
    combine from_list to_list /\
  Forall (fun r =>
            Full_Search_String r = prefix ++ Original_String r ++ suffix /\
            Full_Replace r = prefix ++ New_String r ++ suffix)
         (details st) /\
  replace_strings text0 from_list to_list prefix suffix =
    (fst result,
     Spec.summarise (snd result),
     PyList.sorted Instances (snd result)).
Proof.
  intros st result.
  destruct (run_loop_substitute prefix suffix from_list to_list
              (init_state text0)) as (Ht & Hd & _ & _).
  cbn [init_state text details app] in Ht, Hd.
  fold st in Ht, Hd. fold result in Ht, Hd.
  repeat split.
  - exact Ht.
  - exact Hd.
  - rewrite Hd. apply substitute_terms.
  - rewrite Hd. apply substitute_scoped.
  - rewrite replace_strings_substitute. fold result.
    rewrite (summarise_perm _ _ (sorted_perm Instances (snd result))).
    reflexivity.
Qed.

(** C2.  A later term is matched against the document as the earlier terms
    left it: running the loop over [pairs1 ++ pairs2] is running it over
    [pairs2] from the state [pairs1] produced.  So a replacement can create
    a match: in the document "a", with "a" -> "b" and "b" -> "c", the
    second term finds nothing in the original, the first term rewrites the
    document to "b", the second term finds that "b", and the final document
    is "c".  It can also destroy one: in "ab", with "a" -> "x" and
    "ab" -> "y", the second term occurs in the original and finds nothing
    once the first has run. *)
Theorem later_terms_see_earlier_replacements :
  (forall prefix suffix pairs1 pairs2 st,
      run_loop prefix suffix (pairs1 ++ pairs2) st =
      run_loop prefix suffix pairs2 (run_loop prefix suffix pairs1 st)) /\
  PyStr.count (lit "a") (lit "b") = 0 /\
  text (run_loop [] [] [(lit "a", lit "b")] (init_state (lit "a"))) = lit "b" /\
  replace_strings (lit "a") [lit "a"; lit "b"] [lit "b"; lit "c"] [] [] =
    (lit "c",
     mk_summary 2 2 0 2 0,
     [mk_detail (lit "a") (lit "a") (lit "b") (lit "b") 1;
      mk_detail (lit "b") (lit "b") (lit "c") (lit "c") 1]) /\
  PyStr.count (lit "ab") (lit "ab") = 1 /\
  replace_strings (lit "ab") [lit "a"; lit "ab"] [lit "x"; lit "y"] [] [] =
    (lit "xb",
     mk_summary 2 1 1 1 0,
     [mk_detail (lit "ab") (lit "ab") (lit "y") (lit "y") 0;
      mk_detail (lit "a") (lit "a") (lit "x") (lit "x") 1]).
Proof.
  split; [intros; apply run_loop_app|].
  repeat split; vm_compute; reflexivity.
Qed.

(** C3.  The terms are paired up to the length of the shorter list and the
    entries beyond it are ignored: the searched count is the number of
    records, which is the minimum of the two lengths.  With a search term
    and no replacement term, and with no search term at all, the engine
    returns the document as it was, no record and a summary of zeros. *)
Theorem pairing_stops_at_shorter_list :
  (forall text0 from_list to_list prefix suffix,
      let result := replace_strings text0 from_list to_list prefix suffix in
      Searched_for_Strings (snd (fst result)) =
        Z.of_nat (List.length (snd result)) /\
      List.length (snd result) =
        Nat.min (List.length from_list) (List.length to_list)) /\
  (forall text0 prefix suffix,
      replace_strings text0 [lit "x"] [] prefix suffix =
        (text0, mk_summary 0 0 0 0 0, [])) /\
  (forall text0 to_list prefix suffix,
      replace_strings text0 [] to_list prefix suffix =
        (text0, mk_summary 0 0 0 0 0, [])).
Proof.
  repeat split.
  - rewrite replace_strings_substitute. reflexivity.
  - rewrite replace_strings_substitute. cbn [snd].
    rewrite sorted_length. apply substitute_length.
Qed.

(** C4.  In the returned summary the searched count is the number of
    records, the found count the number of records with [Instances > 0],
    the not-found count the number of records with [Instances = 0], and the
    two add up to the searched count; the total replaced is the sum of
    [Instances] over the records; the multiple count is the number of
    records with [Instances > 1]. *)
Theorem summary_counts_records
    (text0 : str) (from_list to_list : list str) (prefix suffix : str) :
  let result := replace_strings text0 from_list to_list prefix suffix in
  let summary := snd (fst result) in
  let records := snd result in
  Searched_for_Strings summary = Z.of_nat (List.length records) /\
  Strings_Found summary =
    Z.of_nat (List.length (filter (fun r => 0 <? Instances r) records)) /\
  Strings_Not_Found summary =
    Z.of_nat (List.length (filter (fun r => Instances r =? 0) records)) /\
  Strings_Found summary + Strings_Not_Found summary =
    Searched_for_Strings summary /\
  Total_Replaced summary = fold_right Z.add 0 (map Instances records) /\
  Multiple_Instances summary =
    Z.of_nat (List.length (filter (fun r => 1 <? Instances r) records)).
Proof.
  intros result summary records. subst summary records result.
  rewrite replace_strings_substitute. cbn [fst snd Spec.summarise
    Searched_for_Strings Strings_Found Strings_Not_Found Total_Replaced
    Multiple_Instances].
  repeat split.
  pose proof (substitute_nonneg prefix suffix from_list to_list text0) as Hnn.
  eapply Permutation_Forall in Hnn;
    [|symmetry; apply (sorted_perm Instances)].
  induction Hnn as [|r l Hr _ IH]; [reflexivity|].
  cbn [filter List.length].
  destruct (0 <? Instances r) eqn:E1, (Instances r =? 0) eqn:E2;
    cbn [List.length]; lia.
Qed.

(** C5.  The returned records are in ascending order of [Instances]; the
    sort is stable, the records with any one count being in the order in
    which the loop produced them; the returned sequence is a reordering of
    the loop's records, and the returned document is the loop's document,
    whatever the order of the records. *)
Theorem records_sorted_stably
    (text0 : str) (from_list to_list : list str) (prefix suffix : str) :
  let st := run_loop prefix suffix (PyList.zip from_list to_list)
                     (init_state text0) in
  let result := replace_strings text0 from_list to_list prefix suffix in
  StronglySorted (fun a b => Instances a <= Instances b) (snd result) /\
  (forall k,
      filter (fun r => Instances r =? k) (snd result) =
      filter (fun r => Instances r =? k) (details st)) /\
  Permutation (snd result) (details st) /\
  fst (fst result) = text st.
Proof.
  cbn zeta. unfold replace_strings. cbn [fst snd].
  repeat split.
  - apply (sorted_ascending Instances).
  - intros k. apply sorted_stable.
  - apply sorted_perm.
Qed.

(** C6, as the specification words it, fails.  The one search term "ab" is
    trivially absent from every other term, its replacement "ba" does not
    contain it and is not contained in it, and yet a second run on the
    engine's own output finds it again: "aabb" becomes "abab", where the
    second run counts two matches. *)
Lemma second_run_finds_matches :
  ~ second_run_finds_nothing (lit "aabb") [lit "ab"] [lit "ba"] [] [].
Proof.
  unfold second_run_finds_nothing. intros H.
  assert (Habs : absent_from_each_other
                   (map fst (scoped_pairs [] [] [lit "ab"] [lit "ba"]))).
  { intros i j a b Hij Hi Hj.
    destruct i as [|i], j as [|j]; cbn in Hi, Hj; try congruence.
    - destruct j; discriminate.
    - destruct i; discriminate.
    - destruct i; discriminate. }
  specialize (H Habs). cbv zeta in H.
  specialize (H (mk_detail (lit "ab") (lit "ab") (lit "ba") (lit "ba") 2)).
  assert (Hzero : (2 = 0)%Z); [|discriminate Hzero].
  apply H.
  - vm_compute. left. reflexivity.
  - intros fullSearch Hin. vm_compute in Hin.
    destruct Hin as [<-|[]]. split; vm_compute; reflexivity.
Qed.

(** C6, amended.  Every occurrence the engine removes is exchanged for one
    copy of its replacement: a term turns the pieces of the document joined
    by its scoped search string into the same pieces joined by its scoped
    replacement, one piece more than its count; so the length of the output
    plus the removed lengths is the length of the input plus the written
    lengths, summed over the records with their counts.  A second run on
    the engine's own output finds no match for any term exactly when no
    scoped search string is counted in that output; it then returns the
    document as it is and replaces nothing.  This is so, whatever the
    document, when no written string can meet a searched string: the first
    character of each is not found further inside the other and neither
    starts the other. *)
Theorem second_run_idempotence
    (text0 : str) (from_list to_list : list str) (prefix suffix : str) :
  let pairs := scoped_pairs prefix suffix from_list to_list in
  let result := replace_strings text0 from_list to_list prefix suffix in
  let output := fst (fst result) in
  let again := replace_strings output from_list to_list prefix suffix in
  (forall st from_string to_string,
      exists gaps,
        Z.of_nat (List.length gaps) =
          PyStr.count (text st) (prefix ++ from_string ++ suffix) + 1 /\
        text st = join (prefix ++ from_string ++ suffix) gaps /\
        text (loop_body prefix suffix st (from_string, to_string)) =
          join (prefix ++ to_string ++ suffix) gaps) /\
  Z.of_nat (List.length output) +
  fold_right Z.add 0
    (map (fun r => Instances r *
                   Z.of_nat (List.length (Full_Search_String r)))
         (snd result)) =
  Z.of_nat (List.length text0) +
  fold_right Z.add 0
    (map (fun r => Instances r * Z.of_nat (List.length (Full_Replace r)))
         (snd result)) /\
  (Forall (fun r => Instances r = 0) (snd again) <->
   forall fullSearch,
     In fullSearch (map fst pairs) -> PyStr.count output fullSearch = 0) /\
  (Forall (fun r => Instances r = 0) (snd again) ->
   fst (fst again) = output /\
   Strings_Found (snd (fst again)) = 0 /\
   Total_Replaced (snd (fst again)) = 0) /\
  ((forall p q, In p pairs -> In q pairs -> apart (snd p) (fst q) = true) ->
   Forall (fun r => Instances r = 0) (snd again)).
Proof.
  cbv zeta.
  split; [intros; apply loop_body_join|].
  rewrite !replace_strings_substitute. cbn [fst snd].
  set (first := Spec.substitute prefix suffix text0 from_list to_list).
  set (second := Spec.substitute prefix suffix (fst first) from_list to_list).
  split.
  { rewrite !(sum_perm _ _ _ (sorted_perm Instances (snd first))).
    apply substitute_length_balance. }
  assert (Hperm : Forall (fun r => Instances r = 0)
                         (PyList.sorted Instances (snd second)) <->
                  Forall (fun r => Instances r = 0) (snd second)).
  { split; apply Permutation_Forall;
      [apply sorted_perm | symmetry; apply sorted_perm]. }
  split; [|split].
  - rewrite Hperm. split.
    + apply substitute_found_nothing.
    + intros Hc. apply substitute_nothing, Hc.
  - intros Hs.
    pose proof (substitute_found_nothing prefix suffix from_list to_list
                  (fst first) (proj1 Hperm Hs)) as Hc.
    destruct (substitute_nothing prefix suffix from_list to_list (fst first)
                Hc) as [Hdoc _].
    fold second in Hdoc. split; [exact Hdoc|]. split.
    + cbn [Spec.summarise Strings_Found]. clear - Hs.
      induction Hs as [|r l Hr _ IH]; [reflexivity|].
      cbn [filter]. rewrite Hr. exact IH.
    + cbn [Spec.summarise Total_Replaced]. clear - Hs.
      induction Hs as [|r l Hr _ IH]; [reflexivity|].
      cbn [map fold_right]. rewrite Hr, IH. reflexivity.
  - intros Hap. apply Hperm. apply substitute_nothing.
    intros pat Hin. apply in_map_iff in Hin. destruct Hin as (q & <- & Hq).
    assert (Hq1 : fst q <> []).
    { destruct (apart_inv _ _ (Hap q q Hq Hq))
        as (d & nt & c & pt & _ & Hpat & _).
      rewrite Hpat. discriminate. }
    apply count_zero_iff; [exact Hq1|].
    apply substitute_clean.
    + intros p Hp. split; [|exact (Hap p q Hp Hq)].
      destruct (apart_inv _ _ (Hap p p Hp Hp))
        as (d & nt & c & pt & _ & Hpat & _).
      rewrite Hpat. discriminate.
    + right. apply in_map. exact Hq.
Qed.

(** The amended C6 at work.  In the scenario of the documentation, with one
    double quote as search prefix and suffix, none of the three quoted terms
    is counted in the modified text, and a second run finds nothing.  With
    the terms a and b inside the brackets < and >, and x and y for them, no
    written string can meet a searched one, and a second run finds
    nothing. *)
Lemma second_run_idempotence_example :
  (let result :=
     replace_strings Scenario.source_text Scenario.from_txt Scenario.to_txt
                     Scenario.dquote Scenario.dquote in
   let again :=
     replace_strings (fst (fst result)) Scenario.from_txt Scenario.to_txt
                     Scenario.dquote Scenario.dquote in
   fst (fst result) = Scenario.source_text_mod /\
   (forall fullSearch,
       In fullSearch
          (map fst (scoped_pairs Scenario.dquote Scenario.dquote
                                 Scenario.from_txt Scenario.to_txt)) ->
       PyStr.count (fst (fst result)) fullSearch = 0) /\
   Forall (fun r => Instances r = 0) (snd again) /\
   fst (fst again) = fst (fst result) /\
   Total_Replaced (snd (fst again)) = 0) /\
  (let text0 := lit "<a> and <b>, not a or b>" in
   let from_list := [lit "a"; lit "b"] in
   let to_list := [lit "x"; lit "y"] in
   let pairs := scoped_pairs (lit "<") (lit ">") from_list to_list in
   let result :=
     replace_strings text0 from_list to_list (lit "<") (lit ">") in
   let again :=
     replace_strings (fst (fst result)) from_list to_list
                     (lit "<") (lit ">") in
   (forall p q, In p pairs -> In q pairs ->
                apart (snd p) (fst q) = true) /\
   fst (fst result) = lit "<x> and <y>, not a or b>" /\
   Forall (fun r => Instances r = 0) (snd again) /\
   fst (fst again) = fst (fst result)).
Proof.
  cbv zeta. split.
  - pose proof (second_run_idempotence
                  Scenario.source_text Scenario.from_txt Scenario.to_txt
                  Scenario.dquote Scenario.dquote) as H.
    cbv zeta in H. destruct H as (_ & _ & Hiff & Hthen & _).
    assert (Hc : forall fullSearch,
               In fullSearch
                  (map fst (scoped_pairs Scenario.dquote Scenario.dquote
                                         Scenario.from_txt
                                         Scenario.to_txt)) ->
               PyStr.count
                 (fst (fst (replace_strings
                              Scenario.source_text Scenario.from_txt
                              Scenario.to_txt Scenario.dquote
                              Scenario.dquote))) fullSearch = 0).
    { intros fullSearch Hin. cbn in Hin.
      destruct Hin as [<-|[<-|[<-|[]]]]; vm_compute; reflexivity. }
    pose proof (proj2 Hiff Hc) as Hz.
    destruct (Hthen Hz) as (Hdoc & _ & Htotal).
    split; [vm_compute; reflexivity|].
    split; [exact Hc|]. split; [exact Hz|].
    split; [exact Hdoc | exact Htotal].
  - assert (Hap : forall p q,
               In p (scoped_pairs (lit "<") (lit ">") [lit "a"; lit "b"]
                                  [lit "x"; lit "y"]) ->
               In q (scoped_pairs (lit "<") (lit ">") [lit "a"; lit "b"]
                                  [lit "x"; lit "y"]) ->
               apart (snd p) (fst q) = true).
    { intros p q Hp Hq. cbn in Hp, Hq.
      destruct Hp as [<-|[<-|[]]]; destruct Hq as [<-|[<-|[]]];
        vm_compute; reflexivity. }
    pose proof (second_run_idempotence
                  (lit "<a> and <b>, not a or b>") [lit "a"; lit "b"]
                  [lit "x"; lit "y"] (lit "<") (lit ">")) as H.
    cbv zeta in H. destruct H as (_ & _ & _ & Hthen & Hstatic).
    pose proof (Hstatic Hap) as Hz.
    destruct (Hthen Hz) as (Hdoc & _).
    split; [exact Hap|]. split; [vm_compute; reflexivity|].
    split; [exact Hz | exact Hdoc].
Defined.

(** Between quotes the terms alone do not decide it.  With the terms of the
    scenario, the quoted word1 followed by word1 and one more quote becomes
    the quoted new_word1 followed by word1 and the quote: the closing quote
    that was written and the one at the end now enclose word1, and a second
    run counts it. *)
Lemma second_run_quoted_finds_match :
  let text0 :=
    Scenario.quoted (lit "word1") ++ lit "word1" ++ Scenario.dquote in
  let result :=
    replace_strings text0 Scenario.from_txt Scenario.to_txt
                    Scenario.dquote Scenario.dquote in
  let again :=
    replace_strings (fst (fst result)) Scenario.from_txt Scenario.to_txt
                    Scenario.dquote Scenario.dquote in
  fst (fst result) =
    Scenario.quoted (lit "new_word1") ++ lit "word1" ++ Scenario.dquote /\
  map Instances (snd again) = [0; 0; 1].
Proof. vm_compute. split; reflexivity. Qed.

(** C7.  The scope affixes bound the match.  Whatever the affixes, a term
    rewrites the occurrences of prefix + term + suffix and leaves the text
    between them as it is.  With one double quote as search prefix and as
    search suffix, and the terms word1, word2, word3 with
    their replacements, only the quoted word1 of the source text is
    rewritten: the quoted word10 stays, because the quoted word1 does not
    occur in it, and so does the bare word1.  Without the affixes the term
    is found in all three places. *)
Theorem scope_affixes_bound_matching :
  (forall prefix suffix st from_string to_string,
      exists gaps,
        Z.of_nat (List.length gaps) =
          PyStr.count (text st) (prefix ++ from_string ++ suffix) + 1 /\
        text st = join (prefix ++ from_string ++ suffix) gaps /\
        text (loop_body prefix suffix st (from_string, to_string)) =
          join (prefix ++ to_string ++ suffix) gaps) /\
  PyStr.count (Scenario.quoted (lit "word10"))
              (Scenario.quoted (lit "word1")) = 0 /\
  PyStr.count (Scenario.quoted (lit "word10")) (lit "word1") = 1 /\
  replace_strings Scenario.source_text Scenario.from_txt Scenario.to_txt
                  Scenario.dquote Scenario.dquote =
    (Scenario.source_text_mod,
     mk_summary 3 1 2 1 0,
     [mk_detail (lit "word2") (Scenario.quoted (lit "word2"))
                (lit "new_word2") (Scenario.quoted (lit "new_word2")) 0;
      mk_detail (lit "word3") (Scenario.quoted (lit "word3"))
                (lit "new_word3") (Scenario.quoted (lit "new_word3")) 0;
      mk_detail (lit "word1") (Scenario.quoted (lit "word1"))
                (lit "new_word1") (Scenario.quoted (lit "new_word1")) 1]) /\
  fst (fst (replace_strings Scenario.source_text Scenario.from_txt
                            Scenario.to_txt [] [])) =
    Scenario.source_text_unscoped.
Proof.
  split; [intros; apply loop_body_join|].
  repeat split; vm_compute; reflexivity.
Qed.

(** C8.  The replacement list of [get_user_input].  The seven keys of
    [replace_methods] are the seven variants of the method.  For each
    variant the base list is the 'to' list when the method includes List
    and the 'from' list otherwise, and every entry of the result is
    prefix + entry + suffix, the prefix and the suffix being empty when the
    method does not select them.  So with an empty prefix and an empty
    suffix the result is the base list, entry for entry. *)
Theorem replacement_list_from_method :
  map fst replace_methods =
    map Spec.method_string
      [Spec.List_only; Spec.Prefix_only; Spec.Suffix_only; Spec.List_Prefix;
       Spec.List_Suffix; Spec.Prefix_Suffix; Spec.List_Prefix_Suffix] /\
  (forall m from_list to_list_lines prefix_answer suffix_answer,
      get_user_input_to_list (Spec.method_string m) from_list to_list_lines
                             prefix_answer suffix_answer =
      map (fun entry =>
             (if Spec.includes_Prefix m then prefix_answer else []) ++
             entry ++
             (if Spec.includes_Suffix m then suffix_answer else []))
          (if Spec.includes_List m then to_list_lines else from_list)) /\
  (forall m from_list to_list_lines prefix_answer suffix_answer,
      get_user_input_to_list (Spec.method_string m) from_list to_list_lines
                             prefix_answer suffix_answer =
      Spec.ReplacementList m from_list to_list_lines
                           prefix_answer suffix_answer) /\
  (forall m from_list to_list_lines,
      get_user_input_to_list (Spec.method_string m) from_list to_list_lines
                             [] [] =
      Spec.base_list m from_list to_list_lines) /\
  (forall from_list to_list_lines prefix_answer suffix_answer,
      get_user_input_to_list (lit "l") from_list to_list_lines
                             prefix_answer suffix_answer = to_list_lines).
Proof.
  assert (Hid : forall l : list str, map (fun e => [] ++ e ++ []) l = l).
  { intros l. rewrite <- (map_id l) at 2. apply map_ext.
    intros e. cbn. apply app_nil_r. }
  repeat split.
  - intros []; reflexivity.
  - intros []; reflexivity.
  - intros [] from_list to_list_lines; apply Hid.
  - intros. apply Hid.
Qed.

(** C9.  The engine is total: for every document, every two lists of
    strings and every prefix and suffix, [replace_strings] returns a
    document, a summary and a list of records, also when the 'from' list
    has duplicates, when the lists differ in length and when a list is
    empty.  With the duplicated term "a" the second entry finds nothing
    left to replace. *)
Theorem replace_strings_total :
  (forall text0 from_list to_list prefix suffix,
      exists doc summary records,
        replace_strings text0 from_list to_list prefix suffix =
          (doc, summary, records) /\
        List.length records =
          Nat.min (List.length from_list) (List.length to_list)) /\
  ~ NoDup [lit "a"; lit "a"] /\
  replace_strings (lit "a-a") [lit "a"; lit "a"] [lit "b"; lit "c"] [] [] =
    (lit "b-b",
     mk_summary 2 1 1 2 1,
     [mk_detail (lit "a") (lit "a") (lit "c") (lit "c") 0;
      mk_detail (lit "a") (lit "a") (lit "b") (lit "b") 2]) /\
  replace_strings (lit "a-a") [lit "a"; lit "a"] [lit "b"] [] [] =
    (lit "b-b",
     mk_summary 1 1 0 2 1,
     [mk_detail (lit "a") (lit "a") (lit "b") (lit "b") 2]).
Proof.
  split; [|split; [|split]].
  - intros. rewrite replace_strings_substitute.
    eexists _, _, _. split; [reflexivity|].
    rewrite sorted_length. apply substitute_length.
  - intros H. inversion H as [|? ? Hin _]; subst.
    apply Hin. left. reflexivity.
  - vm_compute. reflexivity.
  - vm_compute. reflexivity.
Qed.

(** C10.  The empty search string.  When the search term and both scope
    affixes are empty, the loop counts [len(text) + 1] occurrences whatever
    the document, counts the term as found, and rewrites the document to
    the replacement in front of every character and once more at the end.
    A call with this one term returns that document, one record with that
    count, and the summary of one term searched and found. *)
Theorem empty_search_term (to_string : str) :
  (forall st,
      let st' := loop_body [] [] st ([], to_string) in
      text st' = Spec.insert_around to_string (text st) /\
      count st' = count st + (Z.of_nat (List.length (text st)) + 1) /\
      not_found st' = not_found st /\
      details st' =
        details st ++
        [mk_detail [] [] to_string to_string
                   (Z.of_nat (List.length (text st)) + 1)]) /\
  (forall text0,
      replace_strings_default text0 [[]] [to_string] =
        (Spec.insert_around to_string text0,
         mk_summary 1 1 0 (Z.of_nat (List.length text0) + 1)
                    (match text0 with [] => 0 | _ :: _ => 1 end),
         [mk_detail [] [] to_string to_string
                    (Z.of_nat (List.length text0) + 1)])).
Proof.
  assert (Hpos : forall s : str, (Z.of_nat (List.length s) + 1 >? 0) = true).
  { intros s. rewrite Z.gtb_ltb. apply Z.ltb_lt. lia. }
  split.
  - intros st. cbn zeta.
    rewrite loop_body_text, loop_body_count, loop_body_details.
    cbn [app PyStr.count Spec.replace_all].
    rewrite <- Z.gtb_ltb, Hpos, app_nil_r.
    repeat split.
    cbn [loop_body not_found app PyStr.count]. rewrite Hpos. reflexivity.
  - intros text0. unfold replace_strings_default.
    rewrite replace_strings_substitute, substitute_cons.
    cbn [app PyStr.count Spec.replace_all Spec.substitute fst snd
         PyList.sorted fold_right PyList.insert Spec.summarise
         List.length filter Instances map].
    rewrite <- Z.gtb_ltb, Hpos, app_nil_r.
    unfold Spec.summarise. cbn [filter Instances map fold_right].
    rewrite <- (Z.gtb_ltb (Z.of_nat (List.length text0) + 1) 0), Hpos.
    replace (Z.of_nat (List.length text0) + 1 =? 0) with false
      by (symmetry; apply Z.eqb_neq; lia).
    destruct text0 as [|c text0]; [reflexivity|].
    replace (1 <? Z.of_nat (List.length (c :: text0)) + 1) with true
      by (symmetry; apply Z.ltb_lt; cbn [List.length]; lia).
    reflexivity.
Qed.

(** * Beyond the claims: the rest of the program *)

(** ** Facts about the file names *)

Section PathFacts.

Lemma count_scan_le (old : str) (s : str) :
  forall k, (count_scan old k s <= List.length s)%nat.
Proof.
  induction s as [|c s IH]; intros k; [destruct k; reflexivity|].
  destruct k as [|k]; cbn [count_scan List.length].
  - destruct (startswith (c :: s) old).
    + specialize (IH (Nat.pred (List.length old))). lia.
    + specialize (IH O). lia.
  - specialize (IH k). lia.
Qed.

(** [replace] without a limit rewrites every occurrence. *)
Lemma replace_unlimited (s old new : str) :
  PyStr.replace s old new (-1) = Spec.replace_all s old new.
Proof.
  unfold PyStr.replace, Spec.replace_all. cbn [Z.ltb Z.compare].
  destruct old as [|o old]; [apply interleave_all|].
  apply replace_scan_enough. pose proof (count_scan_le (o :: old) s O). lia.
Qed.

Lemma occurs_char (d : ascii) (s : str) : occurs [d] s <-> In d s.
Proof.
  induction s as [|c s IH].
  - split; [intros H; apply occurs_nil_inv in H; discriminate | intros []].
  - split.
    + intros H. apply occurs_cons_inv in H. destruct H as [H|H].
      * apply startswith_cons in H. destruct H as [-> _]. left. reflexivity.
      * right. apply IH, H.
    + intros [->|H].
      * apply occurs_here. apply startswith_cons.
        split; [reflexivity | apply startswith_nil].
      * apply occurs_later, IH, H.
Qed.

Lemma count_char_zero (d : ascii) (s : str) :
  PyStr.count s [d] = 0 <-> ~ In d s.
Proof.
  rewrite count_zero_iff by discriminate. rewrite occurs_char. reflexivity.
Qed.

(** Rewriting a single character, one position at a time. *)
Lemma replace_all_char_cons (d : ascii) (new : str) (c : ascii) (s : str) :
  Spec.replace_all (c :: s) [d] new =
  if Ascii.eqb c d then new ++ Spec.replace_all s [d] new
  else c :: Spec.replace_all s [d] new.
Proof.
  cbn [Spec.replace_all Spec.replace_all_scan startswith List.length Nat.pred].
  rewrite startswith_nil, andb_true_r. reflexivity.
Qed.

Lemma replace_all_char_absent (d : ascii) (new : str) (s : str) :
  ~ In d s -> Spec.replace_all s [d] new = s.
Proof.
  induction s as [|c s IH]; intros H; [reflexivity|].
  rewrite replace_all_char_cons.
  destruct (Ascii.eqb c d) eqn:E.
  - apply Ascii.eqb_eq in E. subst. exfalso. apply H. left. reflexivity.
  - f_equal. apply IH. intros Hin. apply H. right. exact Hin.
Qed.

Lemma rsplit_last_absent (d : ascii) (s : str) :
  ~ In d s -> rsplit_last s [d] = None.
Proof.
  induction s as [|c s IH]; intros H; [reflexivity|].
  cbn [rsplit_last]. rewrite IH by (intros Hin; apply H; right; exact Hin).
  cbn [startswith]. rewrite startswith_nil, andb_true_r.
  destruct (Ascii.eqb c d) eqn:E; [|reflexivity].
  apply Ascii.eqb_eq in E. subst. exfalso. apply H. left. reflexivity.
Qed.

Lemma rsplit_last_char (d : ascii) (stem ext : str) :
  ~ In d ext -> rsplit_last (stem ++ d :: ext) [d] = Some (stem, ext).
Proof.
  intros H. induction stem as [|c stem IH].
  - cbn [app rsplit_last]. rewrite (rsplit_last_absent d ext H).
    cbn [startswith]. rewrite Ascii.eqb_refl, startswith_nil. reflexivity.
  - cbn [app rsplit_last]. rewrite IH. reflexivity.
Qed.

Lemma new_path_nil : new_path [] = [].
Proof. reflexivity. Qed.

Lemma new_path_cons (c : ascii) (p : str) :
  new_path (c :: p) =
  if Ascii.eqb c "." then lit "_mod." ++ new_path p else c :: new_path p.
Proof.
  unfold new_path. rewrite !replace_unlimited.
  apply (replace_all_char_cons "."%char).
Qed.

Lemma summary_path_cons (c : ascii) (p : str) :
  summary_path (c :: p) =
  match rsplit_last p (lit ".") with
  | Some _ => c :: summary_path p
  | None => if Ascii.eqb c "." then lit "_mod_summary.txt"
            else c :: summary_path p
  end.
Proof.
  unfold summary_path, rsplit_once. cbn [rsplit_last].
  change (lit ".") with ["."%char].
  destruct (rsplit_last p ["."%char]) as [[before after]|]; [reflexivity|].
  cbn [startswith]. rewrite startswith_nil, andb_true_r.
  destruct (Ascii.eqb c "."); reflexivity.
Qed.

Lemma new_path_absent (p : str) :
  PyStr.count p (lit ".") = 0 -> new_path p = p.
Proof.
  intros H. apply (count_char_zero "."%char) in H.
  unfold new_path. rewrite replace_unlimited.
  apply (replace_all_char_absent "."%char), H.
Qed.

Lemma summary_path_absent (p : str) :
  PyStr.count p (lit ".") = 0 ->
  summary_path p = p ++ lit "_mod_summary.txt".
Proof.
  intros H. apply (count_char_zero "."%char) in H.
  unfold summary_path, rsplit_once.
  change (lit ".") with ["."%char]. rewrite (rsplit_last_absent _ _ H).
  reflexivity.
Qed.

End PathFacts.

(** X1.  A source path without a dot: [str.replace] finds nothing to
    rewrite, so [main] writes the modified text to the source path itself;
    the summary goes to the path followed by _mod_summary.txt. *)
Theorem paths_without_dot (source_path : str) :
  PyStr.count source_path (lit ".") = 0 ->
  new_path source_path = source_path /\
  summary_path source_path = source_path ++ lit "_mod_summary.txt".
Proof.
  intros H. split; [apply new_path_absent | apply summary_path_absent];
    exact H.
Qed.

(** X1 at a concrete input. *)
Lemma paths_without_dot_example :
  PyStr.count (lit "notes/README") (lit ".") = 0 /\
  new_path (lit "notes/README") = lit "notes/README" /\
  summary_path (lit "notes/README") = lit "notes/README_mod_summary.txt".
Proof.
  split; [reflexivity|].
  apply (paths_without_dot (lit "notes/README")). reflexivity.
Defined.

(** X2.  The path of the modified file has every dot of the source path
    rewritten to _mod., the dots of directory names included: the source
    path is some pieces joined by a dot, the new path is the same pieces
    joined by _mod., and it is four characters longer for every dot. *)
Theorem new_path_rewrites_every_dot (source_path : str) :
  exists parts,
    Z.of_nat (List.length parts) = PyStr.count source_path (lit ".") + 1 /\
    source_path = join (lit ".") parts /\
    new_path source_path = join (lit "_mod.") parts /\
    Z.of_nat (List.length (new_path source_path)) =
      Z.of_nat (List.length source_path) +
      4 * PyStr.count source_path (lit ".").
Proof.
  unfold new_path. rewrite replace_unlimited.
  destruct (replace_all_join source_path (lit ".") (lit "_mod."))
    as (parts & Hlen & Hs & Hr).
  exists parts. repeat split; try assumption.
  pose proof (replace_all_scan_length (lit ".") (lit "_mod.") source_path
                ltac:(discriminate) O) as H.
  change (Spec.replace_all source_path (lit ".") (lit "_mod."))
    with (Spec.replace_all_scan (lit ".") (lit "_mod.") O source_path).
  change (PyStr.count source_path (lit "."))
    with (Z.of_nat (count_scan (lit ".") O source_path)).
  cbn [Nat.min] in H.
  change (List.length (lit ".")) with 1%nat in H.
  change (List.length (lit "_mod.")) with 5%nat in H. lia.
Qed.

(** X3.  The path of the summary file drops the extension: for a source
    path stem.ext whose extension has no dot it is the stem followed by
    _mod_summary.txt, whatever dots the stem has. *)
Theorem summary_path_drops_extension (stem ext : str) :
  PyStr.count ext (lit ".") = 0 ->
  summary_path (stem ++ lit "." ++ ext) = stem ++ lit "_mod_summary.txt".
Proof.
  intros H. apply (count_char_zero "."%char) in H.
  unfold summary_path, rsplit_once. change (lit ".") with ["."%char].
  cbn [app]. rewrite (rsplit_last_char _ stem ext H). reflexivity.
Qed.

(** X3 at a concrete input. *)
Lemma summary_path_drops_extension_example :
  PyStr.count (lit "txt") (lit ".") = 0 /\
  summary_path (lit "dir.x/my.file" ++ lit "." ++ lit "txt") =
    lit "dir.x/my.file" ++ lit "_mod_summary.txt".
Proof.
  split; [reflexivity|].
  apply (summary_path_drops_extension (lit "dir.x/my.file") (lit "txt")).
  reflexivity.
Defined.

(** X4.  Whatever the source path, the summary file is neither the source
    file nor the modified file; and the modified file is the source file
    exactly when the source path has no dot. *)
Theorem output_paths_distinct (source_path : str) :
  summary_path source_path <> source_path /\
  summary_path source_path <> new_path source_path /\
  (new_path source_path = source_path <->
   PyStr.count source_path (lit ".") = 0).
Proof.
  repeat split.
  - induction source_path as [|c p IH]; [discriminate|].
    rewrite summary_path_cons.
    destruct (rsplit_last p (lit ".")).
    + intros H. injection H as H. exact (IH H).
    + destruct (Ascii.eqb c ".") eqn:E.
      * apply Ascii.eqb_eq in E. subst. discriminate.
      * intros H. injection H as H. exact (IH H).
  - induction source_path as [|c p IH]; [discriminate|].
    rewrite summary_path_cons, new_path_cons.
    destruct (rsplit_last p (lit ".")).
    + destruct (Ascii.eqb c ".") eqn:E.
      * apply Ascii.eqb_eq in E. subst. discriminate.
      * intros H. injection H as H. exact (IH H).
    + destruct (Ascii.eqb c ".") eqn:E.
      * discriminate.
      * intros H. injection H as H. exact (IH H).
  - intros H. apply (count_char_zero "."%char).
    induction source_path as [|c p IH]; [intros []|].
    rewrite new_path_cons in H.
    destruct (Ascii.eqb c ".") eqn:E.
    + apply Ascii.eqb_eq in E. subst. discriminate.
    + injection H as H. intros [Hc|Hin].
      * subst. rewrite Ascii.eqb_refl in E. discriminate.
      * exact (IH H Hin).
  - apply new_path_absent.
Qed.

(** ** More about the engine *)

Section EngineMore.

Lemma run_loop_call_some (p s : str) (pairs : list (str * str)) :
  forall st, run_loop_call (Some p) (Some s) pairs st =
             inr (run_loop p s pairs st).
Proof.
  induction pairs as [|pair pairs IH]; intros st; [reflexivity|].
  cbn [run_loop_call loop_body_call]. rewrite IH. reflexivity.
Qed.

Lemma run_loop_call_none (prefix suffix : option str)
    (pairs : list (str * str)) (st : loop_state) :
  prefix = None \/ suffix = None ->
  run_loop_call prefix suffix pairs st =
  match pairs with [] => inr st | _ :: _ => inl TypeError end.
Proof.
  intros H. destruct pairs as [|pair pairs]; [reflexivity|].
  cbn [run_loop_call loop_body_call].
  destruct H as [-> | ->]; [reflexivity|]. destruct prefix; reflexivity.
Qed.

Lemma replace_all_same (doc old : str) : Spec.replace_all doc old old = doc.
Proof.
  destruct (replace_all_join doc old old) as (gaps & _ & Hs & Hr).
  congruence.
Qed.

Lemma substitute_same (prefix suffix : str) (terms : list str) :
  forall doc,
    fst (Spec.substitute prefix suffix doc terms terms) = doc /\
    Forall (fun r => Instances r = PyStr.count doc (Full_Search_String r))
           (snd (Spec.substitute prefix suffix doc terms terms)).
Proof.
  induction terms as [|t terms IH]; intros doc.
  - split; [reflexivity | constructor].
  - rewrite substitute_cons. cbn zeta. cbn [fst snd].
    rewrite replace_all_same.
    replace (if 0 <? PyStr.count doc (prefix ++ t ++ suffix)
             then doc else doc) with doc by (destruct (0 <? _); reflexivity).
    destruct (IH doc) as [Hd Hr].
    split; [exact Hd | constructor; [reflexivity | exact Hr]].
Qed.

(** Sorting by a key and mapping a function the key goes through. *)
Lemma sorted_map {A B : Type} (f : A -> B) (keyA : A -> Z) (keyB : B -> Z)
    (l : list A) :
  (forall a, keyA a = keyB (f a)) ->
  map f (PyList.sorted keyA l) = PyList.sorted keyB (map f l).
Proof.
  intros Hkey. induction l as [|x l IH]; [reflexivity|].
  cbn [PyList.sorted fold_right map].
  fold (PyList.sorted keyA l). fold (PyList.sorted keyB (map f l)).
  rewrite <- IH. generalize (PyList.sorted keyA l). intros l'.
  induction l' as [|y l' IH']; [reflexivity|].
  cbn [PyList.insert map]. rewrite <- !Hkey.
  destruct (keyA x <=? keyA y); [reflexivity|].
  cbn [map]. rewrite IH'. reflexivity.
Qed.

Lemma filter_length_map (f : Z -> bool) (l : list detail) :
  List.length (filter (fun r => f (Instances r)) l) =
  List.length (filter f (map Instances l)).
Proof.
  induction l as [|r l IH]; [reflexivity|].
  cbn [filter map]. destruct (f (Instances r)); cbn [List.length]; congruence.
Qed.

Lemma summarise_instances (l l' : list detail) :
  map Instances l = map Instances l' -> Spec.summarise l = Spec.summarise l'.
Proof.
  intros H. unfold Spec.summarise.
  rewrite (filter_length_map (fun n => 0 <? n) l),
          (filter_length_map (fun n => 0 <? n) l'),
          (filter_length_map (fun n => n =? 0) l),
          (filter_length_map (fun n => n =? 0) l'),
          (filter_length_map (fun n => 1 <? n) l),
          (filter_length_map (fun n => 1 <? n) l').
  rewrite <- (length_map Instances l), <- (length_map Instances l'), H.
  reflexivity.
Qed.

Lemma substitute_scoped_lists (prefix suffix : str) (from_list : list str) :
  forall (to_list : list str) (doc : str),
    fst (Spec.substitute prefix suffix doc from_list to_list) =
    fst (Spec.substitute [] [] doc
           (map (scoped prefix suffix) from_list)
           (map (scoped prefix suffix) to_list)) /\
    map scoped_view
        (snd (Spec.substitute prefix suffix doc from_list to_list)) =
    map scoped_view
        (snd (Spec.substitute [] [] doc
                (map (scoped prefix suffix) from_list)
                (map (scoped prefix suffix) to_list))).
Proof.
  induction from_list as [|f fs IH]; intros [|t ts] doc;
    try (split; reflexivity).
  cbn [map]. rewrite !substitute_cons. cbn zeta. cbn [fst snd app].
  unfold scoped. rewrite !app_nil_r.
  destruct (IH ts (if 0 <? PyStr.count doc (prefix ++ f ++ suffix)
                   then Spec.replace_all doc (prefix ++ f ++ suffix)
                                         (prefix ++ t ++ suffix)
                   else doc)) as [Hd Hr].
  split; [exact Hd|].
  cbn [map]. rewrite Hr. reflexivity.
Qed.

Lemma instances_sum_nonneg (l : list detail) :
  Forall (fun r => 0 <= Instances r) l ->
  0 <= fold_right Z.add 0 (map Instances l).
Proof.
  induction 1 as [|r l Hr _ IH]; cbn [map fold_right]; lia.
Qed.

Lemma substitute_nothing_replaced (prefix suffix : str)
    (from_list : list str) :
  forall (to_list : list str) (doc : str),
    fold_right Z.add 0
      (map Instances
           (snd (Spec.substitute prefix suffix doc from_list to_list))) = 0 ->
    fst (Spec.substitute prefix suffix doc from_list to_list) = doc.
Proof.
  induction from_list as [|f fs IH]; intros [|t ts] doc; try reflexivity.
  rewrite substitute_cons. cbn zeta. cbn [fst snd map fold_right Instances].
  intros H.
  pose proof (count_scan_nonneg doc (prefix ++ f ++ suffix)) as H0.
  set (doc' := if 0 <? PyStr.count doc (prefix ++ f ++ suffix)
               then _ else doc) in *.
  pose proof (substitute_nonneg prefix suffix fs ts doc') as Hnn.
  assert (Hsum : 0 <= fold_right Z.add 0
                        (map Instances
                             (snd (Spec.substitute prefix suffix doc' fs ts)))).
  { apply instances_sum_nonneg, Hnn. }
  assert (Hc : PyStr.count doc (prefix ++ f ++ suffix) = 0) by lia.
  rewrite IH by lia. subst doc'. rewrite Hc. reflexivity.
Qed.

Lemma replace_strings_call_eq
    (text0 : str) (from_list to_list : list str)
    (prefix suffix : option str) :
  replace_strings_call text0 from_list to_list prefix suffix =
  match prefix, suffix with
  | Some p, Some s => inr (replace_strings text0 from_list to_list p s)
  | _, _ =>
      match PyList.zip from_list to_list with
      | [] => inr (text0, mk_summary 0 0 0 0 0, [])
      | _ :: _ => inl TypeError
      end
  end.
Proof.
  unfold replace_strings_call.
  destruct prefix as [p|], suffix as [s|];
    try (rewrite run_loop_call_none by (auto; fail);
         destruct (PyList.zip from_list to_list); reflexivity).
  rewrite run_loop_call_some. reflexivity.
Qed.

End EngineMore.

(** X5.  [replace_strings] with the affixes as [main] passes them, the
    results of [dict.get]: with both affixes present it is the call on
    strings; with one of them [None] it raises [TypeError] as soon as there
    is a pair of terms to process, and returns the document, a summary of
    zeros and no record when there is none. *)
Theorem replace_strings_call_affixes
    (text0 : str) (from_list to_list : list str)
    (prefix suffix : option str) :
  replace_strings_call text0 from_list to_list prefix suffix =
  match prefix, suffix with
  | Some p, Some s => inr (replace_strings text0 from_list to_list p s)
  | _, _ =>
      match PyList.zip from_list to_list with
      | [] => inr (text0, mk_summary 0 0 0 0 0, [])
      | _ :: _ => inl TypeError
      end
  end.
Proof. apply replace_strings_call_eq. Qed.

(** X6.  With one list as search terms and as replacements the document
    comes back as it was, and every record counts the occurrences of its
    scoped search string in that document. *)
Theorem same_lists_leave_document (text0 : str) (terms : list str)
    (prefix suffix : str) :
  let result := replace_strings text0 terms terms prefix suffix in
  fst (fst result) = text0 /\
  Forall (fun r => Instances r = PyStr.count text0 (Full_Search_String r))
         (snd result).
Proof.
  cbv zeta. rewrite replace_strings_substitute. cbn [fst snd].
  destruct (substitute_same prefix suffix terms text0) as [Hd Hr].
  split; [exact Hd|].
  eapply Permutation_Forall; [symmetry; apply sorted_perm | exact Hr].
Qed.

(** X7.  The search prefix and suffix are concatenation and nothing more:
    the call with the affixes and the call without affixes on the terms that
    already have the affixes around them return the same document, the same
    summary, and records with the same scoped strings and counts in the same
    order. *)
Theorem scope_affixes_are_concatenation
    (text0 : str) (from_list to_list : list str) (prefix suffix : str) :
  let scoped_result :=
    replace_strings text0 from_list to_list prefix suffix in
  let plain_result :=
    replace_strings text0 (map (scoped prefix suffix) from_list)
                    (map (scoped prefix suffix) to_list) [] [] in
  fst (fst scoped_result) = fst (fst plain_result) /\
  snd (fst scoped_result) = snd (fst plain_result) /\
  map (fun r => (Full_Search_String r, Full_Replace r, Instances r))
      (snd scoped_result) =
  map (fun r => (Full_Search_String r, Full_Replace r, Instances r))
      (snd plain_result).
Proof.
  cbv zeta. rewrite !replace_strings_substitute. cbn [fst snd].
  destruct (substitute_scoped_lists prefix suffix from_list to_list text0)
    as [Hd Hr].
  set (a := Spec.substitute prefix suffix text0 from_list to_list) in *.
  set (b := Spec.substitute [] [] text0 _ _) in *.
  assert (Hi : map Instances (snd a) = map Instances (snd b)).
  { apply (f_equal (map snd)) in Hr. rewrite !map_map in Hr. exact Hr. }
  repeat split.
  - exact Hd.
  - rewrite !(summarise_perm _ _ (sorted_perm Instances _)).
    apply summarise_instances, Hi.
  - change (fun r => (Full_Search_String r, Full_Replace r, Instances r))
      with scoped_view.
    rewrite !(sorted_map scoped_view Instances snd) by reflexivity.
    rewrite Hr. reflexivity.
Qed.

(** X8.  When the summary says that nothing was replaced, the document is
    returned as it was. *)
Theorem nothing_replaced_document_unchanged
    (text0 : str) (from_list to_list : list str) (prefix suffix : str) :
  Total_Replaced
    (snd (fst (replace_strings text0 from_list to_list prefix suffix))) = 0 ->
  fst (fst (replace_strings text0 from_list to_list prefix suffix)) = text0.
Proof.
  rewrite replace_strings_substitute. cbn [fst snd Spec.summarise
    Total_Replaced].
  rewrite (sum_perm Instances _ _ (sorted_perm Instances _)).
  apply substitute_nothing_replaced.
Qed.

(** X8 at a concrete input. *)
Lemma nothing_replaced_example :
  Total_Replaced
    (snd (fst (replace_strings (lit "abc") [lit "x"; lit "bd"]
                               [lit "y"; lit "z"] [] []))) = 0 /\
  fst (fst (replace_strings (lit "abc") [lit "x"; lit "bd"]
                            [lit "y"; lit "z"] [] [])) = lit "abc".
Proof.
  split; [reflexivity|].
  apply (nothing_replaced_document_unchanged
           (lit "abc") [lit "x"; lit "bd"] [lit "y"; lit "z"] [] []).
  reflexivity.
Defined.

(** ** Facts about the interactive part *)

Section TextFacts.

Lemma str_eqb_eq (a b : str) : str_eqb a b = true <-> a = b.
Proof.
  revert b. induction a as [|x a IH]; intros [|y b]; cbn [str_eqb];
    try (split; [discriminate | discriminate]); [split; reflexivity|].
  rewrite andb_true_iff, Ascii.eqb_eq, IH.
  split; [intros [-> ->]; reflexivity | intros H; injection H; auto].
Qed.

Lemma str_eqb_refl (a : str) : str_eqb a a = true.
Proof. apply str_eqb_eq. reflexivity. Qed.

Lemma existsb_str_eqb (x : str) (l : list str) :
  existsb (str_eqb x) l = true <-> In x l.
Proof.
  rewrite existsb_exists. split.
  - intros (y & Hy & E). apply str_eqb_eq in E. subst. exact Hy.
  - intros H. exists x. split; [exact H | apply str_eqb_refl].
Qed.

Lemma set_size_le (l : list str) : (set_size l <= List.length l)%nat.
Proof.
  induction l as [|x l IH]; [reflexivity|].
  cbn [set_size List.length]. destruct (existsb (str_eqb x) l); lia.
Qed.

(** [len(l) == len(set(l))] says that no entry is repeated. *)
Lemma set_size_NoDup (l : list str) :
  List.length l = set_size l <-> NoDup l.
Proof.
  induction l as [|x l IH]; [split; [constructor | reflexivity]|].
  cbn [set_size List.length].
  destruct (existsb (str_eqb x) l) eqn:E.
  - apply existsb_str_eqb in E. split.
    + intros H. pose proof (set_size_le l). lia.
    + intros H. inversion H; subst. contradiction.
  - assert (Hx : ~ In x l).
    { intros H. apply existsb_str_eqb in H. congruence. }
    split.
    + intros H. constructor; [exact Hx | apply IH; lia].
    + intros H. inversion H; subst. f_equal. apply IH. assumption.
Qed.

(** No line of [splitlines] holds a line boundary. *)
Lemma splitlines_from_clean (n : nat) :
  forall (s line : str),
    (List.length s <= n)%nat -> boundary_free line ->
    Forall boundary_free (splitlines_from line s).
Proof.
  induction n as [|n IH]; intros s line Hn Hline.
  - destruct s; [|cbn in Hn; lia]. cbn [splitlines_from].
    destruct line; constructor; [|constructor].
    apply Forall_rev. exact Hline.
  - destruct s as [|c s].
    + cbn [splitlines_from].
      destruct line; constructor; [|constructor].
      apply Forall_rev. exact Hline.
    + cbn [splitlines_from]. cbn [List.length] in Hn.
      destruct (line_boundary c) eqn:Ec.
      * constructor; [apply Forall_rev; exact Hline|].
        destruct s as [|c' s']; [constructor|].
        destruct (Ascii.eqb c "013" && Ascii.eqb c' "010").
        -- apply IH; [cbn [List.length] in Hn; lia | constructor].
        -- apply IH; [lia | constructor].
      * apply IH; [lia|]. constructor; assumption.
Qed.

Lemma splitlines_clean (s : str) : Forall boundary_free (splitlines s).
Proof.
  apply (splitlines_from_clean (List.length s)); [lia | constructor].
Qed.

Lemma replace_all_char_gone (d : ascii) (new : str) (s : str) :
  ~ In d new -> ~ In d (Spec.replace_all s [d] new).
Proof.
  intros Hnew. induction s as [|c s IH]; [intros []|].
  rewrite replace_all_char_cons. destruct (Ascii.eqb c d) eqn:E.
  - intros H. apply in_app_or in H. destruct H; contradiction.
  - intros [H|H]; [|contradiction].
    subst. rewrite Ascii.eqb_refl in E. discriminate.
Qed.

Lemma unquote_clean (answer : str) :
  PyStr.count (unquote answer) double_quote = 0.
Proof.
  unfold unquote. rewrite replace_unlimited.
  apply (count_char_zero "034"%char).
  apply (replace_all_char_gone "034"%char). intros [].
Qed.

Lemma search_suffix_clean (answer : str) :
  PyStr.count (PyStr.replace answer (lit "\n") newline (-1)) (lit "\n") = 0.
Proof.
  rewrite replace_unlimited. apply count_zero_iff; [discriminate|].
  apply rewritten_clean; try discriminate.
  intros c Hc Hin. cbn in Hc, Hin.
  destruct Hc as [<-|[]]. destruct Hin as [H|[H|[]]]; discriminate.
Qed.

End TextFacts.

Section InputFacts.
Variable read_file : str -> option str.

Lemma ask_method_ok (answers : list str) (method name : str)
    (rest : list str) :
  ask_method answers = (inr (method, name), rest) ->
  dict_get replace_methods method = Some name.
Proof.
  induction answers as [|a answers IH]; cbn [ask_method]; [discriminate|].
  destruct (dict_get replace_methods a) eqn:E; [|exact IH].
  intros H. injection H as <- <- <-. exact E.
Qed.

Lemma ask_method_error (answers : list str) (e : exn) (rest : list str) :
  ask_method answers = (inl e, rest) -> e = EOFError.
Proof.
  induction answers as [|a answers IH]; cbn [ask_method].
  - intros H. injection H as <- _. reflexivity.
  - destruct (dict_get replace_methods a); [discriminate | exact IH].
Qed.

Lemma ask_source_ok (answers : list str) (path text0 : str)
    (rest : list str) :
  ask_source read_file answers = (inr (path, text0), rest) ->
  read_file path = Some text0 /\ exists answer, path = unquote answer.
Proof.
  induction answers as [|a answers IH]; cbn [ask_source]; [discriminate|].
  destruct (read_file (unquote a)) eqn:E; [|exact IH].
  intros H. injection H as <- <- <-. split; [exact E | eauto].
Qed.

Lemma ask_source_error (answers : list str) (e : exn) (rest : list str) :
  ask_source read_file answers = (inl e, rest) -> e = EOFError.
Proof.
  induction answers as [|a answers IH]; cbn [ask_source].
  - intros H. injection H as <- _. reflexivity.
  - destruct (read_file (unquote a)); [discriminate | exact IH].
Qed.

Lemma ask_from_ok (answers : list str) (path : str) (from_list : list str)
    (rest : list str) :
  ask_from read_file answers = (inr (path, from_list), rest) ->
  exists answer content,
    path = unquote answer /\ read_file path = Some content /\
    from_list = splitlines content /\ NoDup from_list.
Proof.
  induction answers as [|a answers IH]; cbn [ask_from]; [discriminate|].
  destruct (read_file (unquote a)) as [content|] eqn:E; [|exact IH].
  cbn zeta.
  destruct (Nat.eqb (List.length (splitlines content))
                    (set_size (splitlines content))) eqn:En;
    cbn [negb]; [|discriminate].
  intros H. injection H as <- <- <-. exists a, content.
  repeat split; [exact E|]. apply set_size_NoDup, Nat.eqb_eq, En.
Qed.

Lemma ask_from_error (answers : list str) (e : exn) (rest : list str) :
  ask_from read_file answers = (inl e, rest) ->
  e = EOFError \/
  e = ValueError /\
  exists path content,
    read_file path = Some content /\ ~ NoDup (splitlines content).
Proof.
  induction answers as [|a answers IH]; cbn [ask_from].
  - intros H. injection H as <- _. left. reflexivity.
  - destruct (read_file (unquote a)) as [content|] eqn:E; [|exact IH].
    cbn zeta.
    destruct (Nat.eqb (List.length (splitlines content))
                      (set_size (splitlines content))) eqn:En;
      cbn [negb]; [discriminate|].
    intros H. injection H as <- _. right. split; [reflexivity|].
    exists (unquote a), content. split; [exact E|].
    intros Hnd. apply set_size_NoDup in Hnd.
    apply Nat.eqb_neq in En. contradiction.
Qed.

Lemma ask_to_ok (answers : list str) (path : str) (to_list : list str)
    (rest : list str) :
  ask_to read_file answers = (inr (path, to_list), rest) ->
  exists content, read_file path = Some content /\
                  to_list = splitlines content.
Proof.
  induction answers as [|a answers IH]; cbn [ask_to]; [discriminate|].
  destruct (read_file (unquote a)) as [content|] eqn:E; [|exact IH].
  intros H. injection H as <- <- <-. eauto.
Qed.

Lemma ask_to_error (answers : list str) (e : exn) (rest : list str) :
  ask_to read_file answers = (inl e, rest) -> e = EOFError.
Proof.
  induction answers as [|a answers IH]; cbn [ask_to].
  - intros H. injection H as <- _. reflexivity.
  - destruct (read_file (unquote a)); [discriminate | exact IH].
Qed.

Lemma ask_search_inv (from_list : list str) (n : nat) :
  forall (answers : list str) (r : exn + str * str) (rest : list str),
    (List.length answers <= n)%nat ->
    ask_search from_list answers = (r, rest) ->
    match r with
    | inr (search_prefix, search_suffix) =>
        from_list <> [] /\
        exists answer,
          search_suffix = PyStr.replace answer (lit "\n") newline (-1)
    | inl e => e = EOFError \/ e = IndexError /\ from_list = []
    end.
Proof.
  induction n as [|n IH]; intros answers r rest Hn H.
  - destruct answers; [|cbn in Hn; lia]. cbn in H.
    injection H as <- _. left. reflexivity.
  - destruct answers as [|sp [|answer answers]];
      try (cbn in H; injection H as <- _; left; reflexivity).
    cbn [ask_search] in H. destruct from_list as [|f0 fl].
    + injection H as <- _. right. split; reflexivity.
    + destruct answers as [|again answers].
      * injection H as <- _. left. reflexivity.
      * destruct (str_eqb again (lit "y")).
        -- apply IH in H; [exact H | cbn [List.length] in Hn; lia].
        -- injection H as <- _.
           split; [discriminate | exists answer; reflexivity].
Qed.

Lemma ask_search_ok (from_list answers : list str)
    (search_prefix search_suffix : str) (rest : list str) :
  ask_search from_list answers =
    (inr (search_prefix, search_suffix), rest) ->
  from_list <> [] /\
  exists answer,
    search_suffix = PyStr.replace answer (lit "\n") newline (-1).
Proof.
  intros H.
  exact (ask_search_inv from_list (List.length answers) answers _ _
           (Nat.le_refl _) H).
Qed.

Lemma ask_search_error (from_list answers : list str) (e : exn)
    (rest : list str) :
  ask_search from_list answers = (inl e, rest) ->
  e = EOFError \/ e = IndexError /\ from_list = [].
Proof.
  intros H.
  exact (ask_search_inv from_list (List.length answers) answers _ _
           (Nat.le_refl _) H).
Qed.

End InputFacts.

(** ** [get_user_input], taken apart *)

Section ProgramFacts.
Variable read_file : str -> option str.

Ltac break_step H :=
  match type of H with
  | context [ask_method ?a] =>
      destruct (ask_method a) as [[?e|[?method ?name]] ?rest] eqn:?Hmethod
  | context [ask_source read_file ?a] =>
      destruct (ask_source read_file a)
        as [[?e|[?source_path ?text1]] ?rest] eqn:?Hsource
  | context [ask_from read_file ?a] =>
      destruct (ask_from read_file a)
        as [[?e|[?from_path ?from1]] ?rest] eqn:?Hfrom
  | context [ask_to read_file ?a] =>
      destruct (ask_to read_file a)
        as [[?e|[?to_path ?to1]] ?rest] eqn:?Hto
  | context [ask_search ?f ?a] =>
      destruct (ask_search f a)
        as [[?e|[?search_prefix ?search_suffix]] ?rest] eqn:?Hsearch
  end.

Lemma get_user_input_ok (w w' : world) (details : dict str) (text0 : str)
    (from_list to_list : list str) :
  get_user_input read_file w =
    (inr (details, text0, from_list, to_list), w') ->
  exists method name source_path from_list_path to_list_path to_lines
         to_prefix to_suffix search_prefix search_suffix,
    dict_get replace_methods method = Some name /\
    read_file source_path = Some text0 /\
    (exists answer, source_path = unquote answer) /\
    (exists content, read_file from_list_path = Some content /\
                     from_list = splitlines content) /\
    NoDup from_list /\
    from_list <> [] /\
    to_list = get_user_input_to_list method from_list to_lines
                                     to_prefix to_suffix /\
    (exists answer,
        search_suffix = PyStr.replace answer (lit "\n") newline (-1)) /\
    details = input_details_of method name source_path from_list_path
                to_list_path to_prefix to_suffix search_prefix
                search_suffix /\
    written w' = written w.
Proof.
  unfold get_user_input, bind, on_stdin, ret, input. intros H.
  cbn [stdin written] in H.
  repeat (cbn [stdin written] in H;
          first
            [ break_step H; [discriminate|]
            | match type of H with
              | context [if truthy ?c then _ else _] =>
                  destruct (truthy c) eqn:?Hflag
              | context [match ?l with [] => _ | _ :: _ => _ end] =>
                  destruct l as [|?answer ?rest] eqn:?Hin; [discriminate|]
              end ]).
  all: injection H as <- <- <- <- <-.
  all: apply ask_method_ok in Hmethod.
  all: apply ask_source_ok in Hsource; destruct Hsource as [Hread Hquote].
  all: apply ask_from_ok in Hfrom;
    destruct Hfrom as (a & content & _ & Hcontent & Hlines & Hnodup).
  all: apply ask_search_ok in Hsearch; destruct Hsearch as [Hne Hsuffix].
  all: exists method, name, source_path, from_path.
  all: eexists; eexists; eexists; eexists.
  all: exists search_prefix, search_suffix.
  all: unfold get_user_input_to_list, input_details_of.
  all: rewrite ?Hflag, ?Hflag0, ?Hflag1.
  all: repeat split; eauto.
  Unshelve. all: exact [].
Qed.

Lemma get_user_input_error (w w' : world) (e : exn) :
  get_user_input read_file w = (inl e, w') ->
  e = EOFError \/
  (e = ValueError /\
   exists path content,
     read_file path = Some content /\ ~ NoDup (splitlines content)) \/
  (e = IndexError /\
   exists path content,
     read_file path = Some content /\ splitlines content = []).
Proof.
  unfold get_user_input, bind, on_stdin, ret, input. intros H.
  repeat (cbn [stdin written] in H;
          first
            [ break_step H
            | match type of H with
              | context [if truthy ?c then _ else _] =>
                  destruct (truthy c) eqn:?Hflag
              | context [match ?l with [] => _ | _ :: _ => _ end] =>
                  destruct l as [|?answer ?rest] eqn:?Hin
              end ]).
  all: try discriminate.
  all: injection H as <- _.
  all: try (apply ask_method_error in Hmethod; left; exact Hmethod).
  all: try (apply ask_source_error in Hsource; left; exact Hsource).
  all: try (apply ask_to_error in Hto; left; exact Hto).
  all: try (left; reflexivity).
  all: try (apply ask_from_error in Hfrom;
            destruct Hfrom as [Hfrom|Hfrom]; [left | right; left];
            exact Hfrom).
  all: apply ask_search_error in Hsearch.
  all: destruct Hsearch as [Hsearch|[Hsearch Hempty]]; [left; exact Hsearch|].
  all: right; right; split; [exact Hsearch|].
  all: apply ask_from_ok in Hfrom.
  all: destruct Hfrom as (a & content & _ & Hcontent & Hlines & _).
  all: exists from_path, content; split; [exact Hcontent | congruence].
Qed.

(** The 'to' list that is returned, from what was accepted at the prompts
    and read from the 'to' file. *)
Lemma get_user_input_to_side (w w' : world) (details : dict str)
    (text0 : str) (from_list to_list : list str) :
  get_user_input read_file w =
    (inr (details, text0, from_list, to_list), w') ->
  exists method name source_path from_list_path to_list_path
         to_prefix to_suffix search_prefix search_suffix,
    dict_get replace_methods method = Some name /\
    details = input_details_of method name source_path from_list_path
                to_list_path to_prefix to_suffix search_prefix
                search_suffix /\
    to_list =
      map (fun fromStr =>
             (if truthy (PyStr.count method (lit "p"))
              then to_prefix else []) ++
             fromStr ++
             (if truthy (PyStr.count method (lit "s"))
              then to_suffix else []))
          (if truthy (PyStr.count method (lit "l"))
           then match read_file to_list_path with
                | Some content => splitlines content
                | None => []
                end
           else from_list).
Proof.
  unfold get_user_input, bind, on_stdin, ret, input. intros H.
  cbn [stdin written] in H.
  repeat (cbn [stdin written] in H;
          first
            [ break_step H; [discriminate|]
            | match type of H with
              | context [if truthy ?c then _ else _] =>
                  destruct (truthy c) eqn:?Hflag
              | context [match ?l with [] => _ | _ :: _ => _ end] =>
                  destruct l as [|?answer ?rest] eqn:?Hin; [discriminate|]
              end ]).
  all: injection H as <- <- <- <- <-.
  all: apply ask_method_ok in Hmethod.
  all: try (apply ask_to_ok in Hto;
            destruct Hto as (content_to & Hto_read & Hto_lines)).
  all: exists method, name, source_path, from_path.
  all: first [ exists to_path | exists [] ].
  all: eexists; eexists.
  all: exists search_prefix, search_suffix.
  all: unfold input_details_of.
  all: rewrite ?Hflag, ?Hflag0, ?Hflag1, ?Hto_read.
  all: repeat split; try subst to1; eauto.
  Unshelve. all: exact [].
Qed.

Lemma input_details_lookup_to (method name source_path from_list_path
    to_list_path to_prefix to_suffix search_prefix search_suffix : str) :
  let d := input_details_of method name source_path from_list_path
             to_list_path to_prefix to_suffix search_prefix search_suffix in
  dict_get d (lit "Replacement List File") =
    (if truthy (PyStr.count method (lit "l"))
     then Some to_list_path else None) /\
  dict_get d (lit "Replacement Prefix") =
    (if truthy (PyStr.count method (lit "p"))
     then Some to_prefix else None) /\
  dict_get d (lit "Replacement Suffix") =
    (if truthy (PyStr.count method (lit "s"))
     then Some to_suffix else None).
Proof.
  unfold input_details_of.
  destruct (truthy (PyStr.count method (lit "l"))),
           (truthy (PyStr.count method (lit "p"))),
           (truthy (PyStr.count method (lit "s"))),
           (str_eqb search_prefix []), (str_eqb search_suffix []);
    repeat split; reflexivity.
Qed.

Lemma truthy_false (n : Z) : truthy n = false <-> n = 0.
Proof.
  unfold truthy. destruct (n =? 0) eqn:E; cbn [negb].
  - apply Z.eqb_eq in E. split; [intros _; exact E | reflexivity].
  - apply Z.eqb_neq in E. split; [discriminate | contradiction].
Qed.

Lemma input_details_lookup (method name source_path from_list_path
    to_list_path to_prefix to_suffix search_prefix search_suffix : str) :
  let d := input_details_of method name source_path from_list_path
             to_list_path to_prefix to_suffix search_prefix search_suffix in
  dict_get d (lit "Replace Method") = Some name /\
  dict_get d (lit "Source Text File") = Some source_path /\
  dict_get d (lit "Search Prefix") =
    (if str_eqb search_prefix [] then None else Some search_prefix) /\
  dict_get d (lit "Search Suffix") =
    (if str_eqb search_suffix [] then None else Some search_suffix).
Proof.
  unfold input_details_of.
  destruct (truthy (PyStr.count method (lit "l"))),
           (truthy (PyStr.count method (lit "p"))),
           (truthy (PyStr.count method (lit "s"))),
           (str_eqb search_prefix []), (str_eqb search_suffix []);
    repeat split; reflexivity.
Qed.

End ProgramFacts.

(** ** [main], taken apart *)

Section MainFacts.
Variable read_file : str -> option str.
Variable tabulate : list (list value) -> list str -> str.
Variable can_write : str -> bool.

Lemma main_after_input (w w' : world) (details : dict str) (text0 : str)
    (from_list to_list : list str) :
  get_user_input read_file w =
    (inr (details, text0, from_list, to_list), w') ->
  main read_file tabulate can_write w =
  main_report tabulate can_write details text0 from_list to_list w'.
Proof. intros H. unfold main, bind. rewrite H. reflexivity. Qed.

Lemma main_report_type_error (w : world) (details : dict str) (text0 : str)
    (from_list to_list : list str) :
  from_list <> [] -> to_list <> [] ->
  dict_get details (lit "Search Prefix") = None \/
  dict_get details (lit "Search Suffix") = None ->
  main_report tabulate can_write details text0 from_list to_list w =
    (inl TypeError, w).
Proof.
  intros Hf Ht Hnone. unfold main_report, bind, lift.
  rewrite replace_strings_call_eq.
  destruct from_list as [|f fl]; [congruence|].
  destruct to_list as [|t tl]; [congruence|].
  cbn [PyList.zip combine].
  destruct Hnone as [-> | ->]; [reflexivity|].
  destruct (dict_get details (lit "Search Prefix")); reflexivity.
Qed.

Lemma replace_strings_no_to (text0 : str) (from_list : list str)
    (prefix suffix : str) :
  replace_strings text0 from_list [] prefix suffix =
  (text0, mk_summary 0 0 0 0 0, []).
Proof. destruct from_list; reflexivity. Qed.

Lemma main_report_index_error (w : world) (details : dict str) (text0 : str)
    (from_list : list str) :
  main_report tabulate can_write details text0 from_list [] w =
    (inl IndexError, w).
Proof.
  unfold main_report, bind, lift. rewrite replace_strings_call_eq.
  replace (PyList.zip from_list (@nil str)) with (@nil (str * str))
    by (destruct from_list; reflexivity).
  destruct (dict_get details (lit "Search Prefix")),
           (dict_get details (lit "Search Suffix"));
    rewrite ?replace_strings_no_to; reflexivity.
Qed.

Lemma replace_strings_records (text0 : str) (from_list to_list : list str)
    (prefix suffix : str) :
  from_list <> [] -> to_list <> [] ->
  snd (replace_strings text0 from_list to_list prefix suffix) <> [].
Proof.
  intros Hf Ht H. apply (f_equal (@List.length detail)) in H.
  rewrite replace_strings_substitute in H. cbn [snd] in H.
  rewrite sorted_length, substitute_length in H.
  destruct from_list; [congruence|]. destruct to_list; [congruence|].
  discriminate.
Qed.

(** [main] from the two questions about saving on: the summary file comes
    first, and a file that cannot be opened for writing ends the run. *)
Lemma main_report_outcome (w : world) (details : dict str) (text0 : str)
    (from_list to_list : list str) (p s source_path save_file
    save_summary : str) (rest : list str) :
  from_list <> [] -> to_list <> [] ->
  dict_get details (lit "Search Prefix") = Some p ->
  dict_get details (lit "Search Suffix") = Some s ->
  dict_get details (lit "Source Text File") = Some source_path ->
  stdin w = save_file :: save_summary :: rest ->
  let result := replace_strings text0 from_list to_list p s in
  let report :=
    (summary_path source_path,
     report_text tabulate details (snd (fst result)) (snd result)) in
  let modified := (new_path source_path, fst (fst result)) in
  let saved :=
    if str_eqb save_summary (lit "y") then [report] else [] in
  main_report tabulate can_write details text0 from_list to_list w =
  if str_eqb save_summary (lit "y") &&
     negb (can_write (summary_path source_path))
  then (inl OSError, mk_world rest (written w))
  else if str_eqb save_file (lit "y")
  then if can_write (new_path source_path)
       then (inr tt, mk_world rest (written w ++ saved ++ [modified]))
       else (inl OSError, mk_world rest (written w ++ saved))
  else (inr tt, mk_world rest (written w ++ saved)).
Proof.
  intros Hf Ht Hp Hs Hsrc Hin. cbv zeta.
  pose proof (replace_strings_records text0 from_list to_list p s Hf Ht)
    as Hrec.
  unfold main_report, bind, lift, input, ret, raise, write_file.
  rewrite replace_strings_call_eq, Hp, Hs, Hsrc.
  destruct (replace_strings text0 from_list to_list p s)
    as [[modified summary0] records].
  cbn [fst snd] in *. destruct records as [|r records]; [congruence|].
  rewrite Hin. cbn [stdin written]. unfold report_text.
  destruct (str_eqb save_summary (lit "y")), (str_eqb save_file (lit "y")),
           (can_write (summary_path source_path)),
           (can_write (new_path source_path));
    cbn [stdin written app andb negb]; rewrite ?app_nil_r, <- ?app_assoc;
    reflexivity.
Qed.

End MainFacts.

(** X9.  When [get_user_input] returns, the 'from' list has no repeated
    entry and at least one entry, and no entry holds a line boundary. *)
Theorem get_user_input_from_list
    (read_file : str -> option str) (w w' : world) (details : dict str)
    (text0 : str) (from_list to_list : list str) :
  get_user_input read_file w =
    (inr (details, text0, from_list, to_list), w') ->
  NoDup from_list /\
  from_list <> [] /\
  Forall (fun line => Forall (fun c => line_boundary c = false) line)
         from_list.
Proof.
  intros H. apply get_user_input_ok in H.
  destruct H as (method & name & source_path & from_path & to_path &
                 to_lines & to_prefix & to_suffix & sp & ss &
                 _ & _ & _ & (content & _ & Hlines) & Hnd & Hne & _).
  repeat split; [exact Hnd | exact Hne |].
  subst from_list. apply splitlines_clean.
Qed.

(** X10.  When [get_user_input] returns, the 'to' list is the list lines
    319-346 build for a method of the table [replace_methods], whose name is
    recorded under Replace Method: every entry of the base list with the
    recorded replacement prefix in front and the recorded replacement suffix
    behind, the base list being the lines of the file recorded under
    Replacement List File when there is one and the 'from' list otherwise.
    The three are recorded exactly when the method has an l, a p, an s; so
    when the method has no l the 'to' list is as long as the 'from'
    list. *)
Theorem get_user_input_to_list_built
    (read_file : str -> option str) (w w' : world) (details : dict str)
    (text0 : str) (from_list to_list : list str) :
  get_user_input read_file w =
    (inr (details, text0, from_list, to_list), w') ->
  exists method name,
    dict_get replace_methods method = Some name /\
    dict_get details (lit "Replace Method") = Some name /\
    (dict_get details (lit "Replacement List File") = None <->
     PyStr.count method (lit "l") = 0) /\
    (dict_get details (lit "Replacement Prefix") = None <->
     PyStr.count method (lit "p") = 0) /\
    (dict_get details (lit "Replacement Suffix") = None <->
     PyStr.count method (lit "s") = 0) /\
    to_list =
      get_user_input_to_list method from_list
        (recorded_lines read_file details (lit "Replacement List File"))
        (recorded details (lit "Replacement Prefix"))
        (recorded details (lit "Replacement Suffix")) /\
    to_list =
      map (fun entry =>
             recorded details (lit "Replacement Prefix") ++ entry ++
             recorded details (lit "Replacement Suffix"))
          (match dict_get details (lit "Replacement List File") with
           | Some _ =>
               recorded_lines read_file details
                              (lit "Replacement List File")
           | None => from_list
           end) /\
    (PyStr.count method (lit "l") = 0 ->
     List.length to_list = List.length from_list).
Proof.
  intros H. apply get_user_input_to_side in H.
  destruct H as (method & name & source_path & from_path & to_path &
                 to_prefix & to_suffix & sp & ss & Hm & Hd & Hto).
  destruct (input_details_lookup method name source_path from_path to_path
              to_prefix to_suffix sp ss) as (Hname & _).
  destruct (input_details_lookup_to method name source_path from_path
              to_path to_prefix to_suffix sp ss) as (Hl & Hp & Hs).
  cbv zeta in Hname, Hl, Hp, Hs. rewrite <- Hd in Hname, Hl, Hp, Hs.
  exists method, name. unfold recorded_lines, recorded.
  rewrite Hl, Hp, Hs. unfold get_user_input_to_list.
  rewrite <- !truthy_false.
  destruct (truthy (PyStr.count method (lit "l"))),
           (truthy (PyStr.count method (lit "p"))),
           (truthy (PyStr.count method (lit "s")));
    (repeat split; try exact Hm; try exact Hname; try exact Hto;
     try discriminate; try reflexivity;
     try (intros _; subst to_list; apply length_map)).
Qed.

(** X11.  [get_user_input] records a search prefix and a search suffix
    only when they are not empty, and a recorded search suffix holds no
    backslash followed by n: each one typed was turned into a line feed. *)
Theorem get_user_input_scope_recorded
    (read_file : str -> option str) (w w' : world) (details : dict str)
    (text0 : str) (from_list to_list : list str) :
  get_user_input read_file w =
    (inr (details, text0, from_list, to_list), w') ->
  (forall v, dict_get details (lit "Search Prefix") = Some v -> v <> []) /\
  (forall v, dict_get details (lit "Search Suffix") = Some v ->
             v <> [] /\ PyStr.count v (lit "\n") = 0).
Proof.
  intros H. apply get_user_input_ok in H.
  destruct H as (method & name & source_path & from_path & to_path &
                 to_lines & to_prefix & to_suffix & sp & ss &
                 _ & _ & _ & _ & _ & _ & _ & (answer & Hss) & Hd & _).
  destruct (input_details_lookup method name source_path from_path to_path
              to_prefix to_suffix sp ss) as (_ & _ & Hsp & Hsuf).
  cbv zeta in Hsp, Hsuf. rewrite <- Hd in Hsp, Hsuf. split.
  - intros v Hv. rewrite Hsp in Hv.
    destruct (str_eqb sp []) eqn:E; [discriminate|].
    injection Hv as <-. intros ->. discriminate.
  - intros v Hv. rewrite Hsuf in Hv.
    destruct (str_eqb ss []) eqn:E; [discriminate|].
    injection Hv as <-. split; [intros Hnil; rewrite Hnil in E; discriminate|].
    subst ss. apply search_suffix_clean.
Qed.

(** X12.  When [get_user_input] returns, the text it returns is what was
    read from the path recorded under Source Text File, and that path holds
    no double quote. *)
Theorem get_user_input_source
    (read_file : str -> option str) (w w' : world) (details : dict str)
    (text0 : str) (from_list to_list : list str) :
  get_user_input read_file w =
    (inr (details, text0, from_list, to_list), w') ->
  exists source_path,
    dict_get details (lit "Source Text File") = Some source_path /\
    read_file source_path = Some text0 /\
    PyStr.count source_path double_quote = 0.
Proof.
  intros H. apply get_user_input_ok in H.
  destruct H as (method & name & source_path & from_path & to_path &
                 to_lines & to_prefix & to_suffix & sp & ss &
                 _ & Hread & (answer & Hq) & _ & _ & _ & _ & _ & Hd & _).
  exists source_path. repeat split; [|exact Hread|].
  - subst details. apply input_details_lookup.
  - subst source_path. apply unquote_clean.
Qed.

(** X13.  [get_user_input] fails in three ways only: the console has no
    more answers ([EOFError]), a list file that could be read repeats a line
    ([ValueError]), a list file that could be read has no line
    ([IndexError]). *)
Theorem get_user_input_errors
    (read_file : str -> option str) (w w' : world) (e : exn) :
  get_user_input read_file w = (inl e, w') ->
  e = EOFError \/
  (e = ValueError /\
   exists path content,
     read_file path = Some content /\ ~ NoDup (splitlines content)) \/
  (e = IndexError /\
   exists path content,
     read_file path = Some content /\ splitlines content = []).
Proof. apply get_user_input_error. Qed.

(** X14.  When [get_user_input] has recorded no search prefix or no search
    suffix, which is when the user left it empty, and the 'to' list has an
    entry, [main] raises [TypeError] right after the input: [replace_strings]
    is handed [None]. *)
Theorem main_type_error
    (read_file : str -> option str)
    (tabulate : list (list value) -> list str -> str)
    (can_write : str -> bool)
    (w w' : world) (details : dict str) (text0 : str)
    (from_list to_list : list str) :
  get_user_input read_file w =
    (inr (details, text0, from_list, to_list), w') ->
  to_list <> [] ->
  dict_get details (lit "Search Prefix") = None \/
  dict_get details (lit "Search Suffix") = None ->
  main read_file tabulate can_write w = (inl TypeError, w').
Proof.
  intros H Hto Hnone. rewrite (main_after_input _ _ _ _ _ _ _ _ _ H).
  apply main_report_type_error; [|exact Hto | exact Hnone].
  apply get_user_input_ok in H.
  destruct H as (method & name & source_path & from_path & to_path &
                 to_lines & to_prefix & to_suffix & sp & ss &
                 _ & _ & _ & _ & _ & Hne & _).
  exact Hne.
Qed.

(** X15.  When [get_user_input] returns an empty 'to' list, [main] raises
    [IndexError] right after the input: there is no first record to take
    the table's headers from. *)
Theorem main_index_error
    (read_file : str -> option str)
    (tabulate : list (list value) -> list str -> str)
    (can_write : str -> bool)
    (w w' : world) (details : dict str) (text0 : str)
    (from_list : list str) :
  get_user_input read_file w = (inr (details, text0, from_list, []), w') ->
  main read_file tabulate can_write w = (inl IndexError, w').
Proof.
  intros H. rewrite (main_after_input _ _ _ _ _ _ _ _ _ H).
  apply main_report_index_error.
Qed.

(** X16.  A run of [main] in which both search affixes are recorded and
    the 'to' list has an entry goes on to the two questions about saving.
    When the second answer is y it writes the report to the summary path,
    then, when the first answer is y, the document [replace_strings]
    returned to the new path, and nothing else.  A file that cannot be
    opened for writing ends the run with [OSError]: before anything is
    written when it is the summary file, after the summary file has been
    written when it is the modified file. *)
Theorem main_writes
    (read_file : str -> option str)
    (tabulate : list (list value) -> list str -> str)
    (can_write : str -> bool)
    (w w' : world) (details : dict str) (text0 : str)
    (from_list to_list : list str)
    (p s source_path save_file save_summary : str) (rest : list str) :
  get_user_input read_file w =
    (inr (details, text0, from_list, to_list), w') ->
  to_list <> [] ->
  dict_get details (lit "Search Prefix") = Some p ->
  dict_get details (lit "Search Suffix") = Some s ->
  dict_get details (lit "Source Text File") = Some source_path ->
  stdin w' = save_file :: save_summary :: rest ->
  let result := replace_strings text0 from_list to_list p s in
  let report :=
    (summary_path source_path,
     report_text tabulate details (snd (fst result)) (snd result)) in
  let modified := (new_path source_path, fst (fst result)) in
  let saved :=
    if str_eqb save_summary (lit "y") then [report] else [] in
  main read_file tabulate can_write w =
  if str_eqb save_summary (lit "y") &&
     negb (can_write (summary_path source_path))
  then (inl OSError, mk_world rest (written w))
  else if str_eqb save_file (lit "y")
  then if can_write (new_path source_path)
       then (inr tt, mk_world rest (written w ++ saved ++ [modified]))
       else (inl OSError, mk_world rest (written w ++ saved))
  else (inr tt, mk_world rest (written w ++ saved)).
Proof.
  intros H Hto Hp Hs Hsrc Hin.
  rewrite (main_after_input _ _ _ _ _ _ _ _ _ H).
  apply get_user_input_ok in H.
  destruct H as (method & name & source_path' & from_path & to_path &
                 to_lines & to_prefix & to_suffix & sp & ss &
                 _ & _ & _ & _ & _ & Hne & _ & _ & _ & Hw).
  pose proof (main_report_outcome tabulate can_write w' details text0
                from_list to_list p s source_path save_file save_summary
                rest Hne Hto Hp Hs Hsrc Hin) as Hmain.
  cbv zeta in Hmain |- *. rewrite Hmain, Hw. reflexivity.
Qed.

(** Running [get_user_input] on given answers and naming what it returns. *)
Ltac run_input answers H :=
  let v := eval vm_compute in
             (get_user_input Session.read_file (mk_world answers [])) in
  assert (H : get_user_input Session.read_file (mk_world answers []) = v)
    by (vm_compute; reflexivity);
  lazymatch v with
  | (inr (?d, ?t, ?f, ?tl), ?w') => exists d, t, f, tl, w'
  | (inl ?e, ?w') => exists e, w'
  end.

(** X9 at a concrete input. *)
Lemma get_user_input_from_list_example :
  exists details text0 from_list to_list w',
    get_user_input Session.read_file
      (mk_world Session.answers_scoped []) =
      (inr (details, text0, from_list, to_list), w') /\
    NoDup from_list /\
    from_list <> [] /\
    Forall (fun line => Forall (fun c => line_boundary c = false) line)
           from_list.
Proof.
  run_input Session.answers_scoped H.
  split; [exact H|].
  exact (get_user_input_from_list _ _ _ _ _ _ _ H).
Defined.

(** X10 at concrete inputs: method lps with the 'to' file of the
    documentation, and method ps, which has no 'to' file. *)
Lemma get_user_input_to_list_built_example :
  (exists details text0 from_list to_list w',
    get_user_input Session.read_file
      (mk_world Session.answers_scoped []) =
      (inr (details, text0, from_list, to_list), w') /\
    to_list =
      map (fun entry => lit "p_" ++ entry ++ lit "_s")
          [lit "new_word1"; lit "new_word2"; lit "new_word3"] /\
    exists method name,
      dict_get replace_methods method = Some name /\
      dict_get details (lit "Replace Method") = Some name /\
      (dict_get details (lit "Replacement List File") = None <->
       PyStr.count method (lit "l") = 0) /\
      (dict_get details (lit "Replacement Prefix") = None <->
       PyStr.count method (lit "p") = 0) /\
      (dict_get details (lit "Replacement Suffix") = None <->
       PyStr.count method (lit "s") = 0) /\
      to_list =
        get_user_input_to_list method from_list
          (recorded_lines Session.read_file details
                          (lit "Replacement List File"))
          (recorded details (lit "Replacement Prefix"))
          (recorded details (lit "Replacement Suffix")) /\
      to_list =
        map (fun entry =>
               recorded details (lit "Replacement Prefix") ++ entry ++
               recorded details (lit "Replacement Suffix"))
            (match dict_get details (lit "Replacement List File") with
             | Some _ =>
                 recorded_lines Session.read_file details
                                (lit "Replacement List File")
             | None => from_list
             end) /\
      (PyStr.count method (lit "l") = 0 ->
       List.length to_list = List.length from_list)) /\
  (exists details text0 from_list to_list w',
    get_user_input Session.read_file
      (mk_world Session.answers_affixed []) =
      (inr (details, text0, from_list, to_list), w') /\
    dict_get details (lit "Replace Method") = Some (lit "Prefix / Suffix") /\
    dict_get details (lit "Replacement List File") = None /\
    from_list = [lit "word1"; lit "word2"; lit "word3"] /\
    to_list = [lit "p_word1_s"; lit "p_word2_s"; lit "p_word3_s"] /\
    exists method name,
      dict_get replace_methods method = Some name /\
      dict_get details (lit "Replace Method") = Some name /\
      (dict_get details (lit "Replacement List File") = None <->
       PyStr.count method (lit "l") = 0) /\
      (dict_get details (lit "Replacement Prefix") = None <->
       PyStr.count method (lit "p") = 0) /\
      (dict_get details (lit "Replacement Suffix") = None <->
       PyStr.count method (lit "s") = 0) /\
      to_list =
        get_user_input_to_list method from_list
          (recorded_lines Session.read_file details
                          (lit "Replacement List File"))
          (recorded details (lit "Replacement Prefix"))
          (recorded details (lit "Replacement Suffix")) /\
      to_list =
        map (fun entry =>
               recorded details (lit "Replacement Prefix") ++ entry ++
               recorded details (lit "Replacement Suffix"))
            (match dict_get details (lit "Replacement List File") with
             | Some _ =>
                 recorded_lines Session.read_file details
                                (lit "Replacement List File")
             | None => from_list
             end) /\
      (PyStr.count method (lit "l") = 0 ->
       List.length to_list = List.length from_list)).
Proof.
  split.
  - run_input Session.answers_scoped H.
    split; [exact H|]. split; [reflexivity|].
    exact (get_user_input_to_list_built _ _ _ _ _ _ _ H).
  - run_input Session.answers_affixed H.
    split; [exact H|]. do 4 (split; [reflexivity|]).
    exact (get_user_input_to_list_built _ _ _ _ _ _ _ H).
Defined.

(** X11 at a concrete input. *)
Lemma get_user_input_scope_recorded_example :
  exists details text0 from_list to_list w',
    get_user_input Session.read_file
      (mk_world Session.answers_scoped []) =
      (inr (details, text0, from_list, to_list), w') /\
    (forall v, dict_get details (lit "Search Prefix") = Some v -> v <> []) /\
    (forall v, dict_get details (lit "Search Suffix") = Some v ->
               v <> [] /\ PyStr.count v (lit "\n") = 0).
Proof.
  run_input Session.answers_scoped H.
  split; [exact H|].
  exact (get_user_input_scope_recorded _ _ _ _ _ _ _ H).
Defined.

(** X12 at a concrete input. *)
Lemma get_user_input_source_example :
  exists details text0 from_list to_list w',
    get_user_input Session.read_file
      (mk_world Session.answers_scoped []) =
      (inr (details, text0, from_list, to_list), w') /\
    exists source_path,
      dict_get details (lit "Source Text File") = Some source_path /\
      Session.read_file source_path = Some text0 /\
      PyStr.count source_path double_quote = 0.
Proof.
  run_input Session.answers_scoped H.
  split; [exact H|].
  exact (get_user_input_source _ _ _ _ _ _ _ H).
Defined.

(** X13 at a concrete input. *)
Lemma get_user_input_errors_example :
  exists e w',
    get_user_input Session.read_file
      (mk_world Session.answers_twice []) = (inl e, w') /\
    (e = EOFError \/
     (e = ValueError /\
      exists path content,
        Session.read_file path = Some content /\
        ~ NoDup (splitlines content)) \/
     (e = IndexError /\
      exists path content,
        Session.read_file path = Some content /\
        splitlines content = [])).
Proof.
  run_input Session.answers_twice H.
  split; [exact H|].
  exact (get_user_input_errors _ _ _ _ H).
Defined.

(** X14 at a concrete input. *)
Lemma main_type_error_example :
  exists details text0 from_list to_list w',
    get_user_input Session.read_file
      (mk_world Session.answers_unscoped []) =
      (inr (details, text0, from_list, to_list), w') /\
    to_list <> [] /\
    (dict_get details (lit "Search Prefix") = None \/
     dict_get details (lit "Search Suffix") = None) /\
    main Session.read_file Session.tabulate Session.can_write
         (mk_world Session.answers_unscoped []) = (inl TypeError, w').
Proof.
  run_input Session.answers_unscoped H.
  split; [exact H|].
  assert (Hto : [lit "new_word1"; lit "new_word2"; lit "new_word3"]
                <> @nil str) by discriminate.
  split; [exact Hto|].
  match goal with
  | |- (?A \/ ?B) /\ _ => assert (Hnone : A \/ B) by (left; reflexivity)
  end.
  split; [exact Hnone|].
  exact (main_type_error _ Session.tabulate Session.can_write
           _ _ _ _ _ _ H Hto Hnone).
Defined.

(** X15 at a concrete input. *)
Lemma main_index_error_example :
  exists details text0 from_list to_list w',
    get_user_input Session.read_file
      (mk_world Session.answers_empty_to []) =
      (inr (details, text0, from_list, to_list), w') /\
    to_list = [] /\
    main Session.read_file Session.tabulate Session.can_write
         (mk_world Session.answers_empty_to []) = (inl IndexError, w').
Proof.
  run_input Session.answers_empty_to H.
  split; [exact H|]. split; [reflexivity|].
  exact (main_index_error _ Session.tabulate Session.can_write
           _ _ _ _ _ H).
Defined.

(** X16 at a concrete input. *)
Lemma main_writes_example :
  exists details text0 from_list to_list w',
    get_user_input Session.read_file
      (mk_world Session.answers_scoped []) =
      (inr (details, text0, from_list, to_list), w') /\
    to_list <> [] /\
    dict_get details (lit "Search Prefix") = Some double_quote /\
    dict_get details (lit "Search Suffix") = Some double_quote /\
    dict_get details (lit "Source Text File") = Some (lit "source.txt") /\
    stdin w' = [lit "y"; lit "y"] /\
    main Session.read_file Session.tabulate Session.can_write
         (mk_world Session.answers_scoped []) =
    (inr tt,
     mk_world []
       [(lit "source_mod_summary.txt",
         newline ++ lit "Input Details" ++ newline ++ lit "table" ++
         newline ++ newline ++ lit "Replacement Summary" ++ newline ++
         lit "table" ++ newline ++ newline ++ lit "table");
        (lit "source_mod.txt",
         lit "replace " ++ Scenario.quoted (lit "p_new_word1_s") ++
         lit ", keep " ++ Scenario.quoted (lit "word10") ++
         lit " and word1")]).
Proof.
  run_input Session.answers_scoped H.
  split; [exact H|].
  assert (Hto : [lit "p_new_word1_s"; lit "p_new_word2_s";
                 lit "p_new_word3_s"] <> @nil str) by discriminate.
  split; [exact Hto|].
  split; [reflexivity|]. split; [reflexivity|]. split; [reflexivity|].
  split; [reflexivity|].
  pose proof (main_writes _ Session.tabulate Session.can_write _ _ _ _ _ _
                double_quote double_quote (lit "source.txt")
                (lit "y") (lit "y") []
                H Hto eq_refl eq_refl eq_refl eq_refl) as Hmain.
  cbv zeta in Hmain. rewrite Hmain. vm_compute. reflexivity.
Defined.

(** ** Failing runs and the lines of a file *)

Section FailureFacts.
Variable read_file : str -> option str.
Variable tabulate : list (list value) -> list str -> str.
Variable can_write : str -> bool.

Ltac break_input H :=
  match type of H with
  | context [ask_method ?a] =>
      destruct (ask_method a) as [[?e|[?method ?name]] ?rest]
  | context [ask_source read_file ?a] =>
      destruct (ask_source read_file a) as [[?e|[?source_path ?text1]] ?rest]
  | context [ask_from read_file ?a] =>
      destruct (ask_from read_file a) as [[?e|[?from_path ?from1]] ?rest]
  | context [ask_to read_file ?a] =>
      destruct (ask_to read_file a) as [[?e|[?to_path ?to1]] ?rest]
  | context [ask_search ?f ?a] =>
      destruct (ask_search f a)
        as [[?e|[?search_prefix ?search_suffix]] ?rest]
  | context [if truthy ?c then _ else _] => destruct (truthy c)
  | context [match ?l with [] => _ | _ :: _ => _ end] =>
      destruct l as [|?answer ?rest]
  end.

(** [get_user_input] writes no file. *)
Lemma get_user_input_written (w w' : world)
    (r : exn + (dict str * str * list str * list str)) :
  get_user_input read_file w = (r, w') -> written w' = written w.
Proof.
  unfold get_user_input, bind, on_stdin, ret, input. intros H.
  repeat (cbn [stdin written] in H; break_input H).
  all: cbn [stdin written] in H; injection H as _ <-; reflexivity.
Qed.

(** [main], once the input is there, fails before it writes, or at the
    modified file when the summary file is written. *)
Lemma main_report_failure (w w' : world) (details : dict str) (text0 : str)
    (from_list to_list : list str) (e : exn) :
  main_report tabulate can_write details text0 from_list to_list w =
    (inl e, w') ->
  written w' = written w \/
  e = OSError /\
  exists source_path modified summary0 records,
    dict_get details (lit "Source Text File") = Some source_path /\
    replace_strings_call text0 from_list to_list
      (dict_get details (lit "Search Prefix"))
      (dict_get details (lit "Search Suffix")) =
      inr (modified, summary0, records) /\
    written w' =
      written w ++
      [(summary_path source_path,
        report_text tabulate details summary0 records)] /\
    can_write (summary_path source_path) = true /\
    can_write (new_path source_path) = false.
Proof.
  unfold main_report, bind, lift, input, ret, raise, write_file.
  destruct (replace_strings_call text0 from_list to_list _ _)
    as [e0|[[modified summary0] records]] eqn:Hcall.
  - intros H. injection H as _ <-. left. reflexivity.
  - destruct records as [|r records].
    + intros H. injection H as _ <-. left. reflexivity.
    + destruct (stdin w) as [|save_file [|save_summary rest]] eqn:Hin;
        cbn [stdin written]; try rewrite Hin;
        try (intros H; injection H as _ <-; left; reflexivity).
      destruct (dict_get details (lit "Source Text File"))
        as [source_path|] eqn:Hsrc.
      * destruct (str_eqb save_summary (lit "y")),
                 (str_eqb save_file (lit "y")),
                 (can_write (summary_path source_path)) eqn:Hs,
                 (can_write (new_path source_path)) eqn:Hn;
          cbn [stdin written]; rewrite ?Hs, ?Hn; cbn [stdin written];
          intros H; try discriminate; injection H as <- <-;
          try (left; reflexivity).
        right. split; [reflexivity|].
        exists source_path, modified, summary0, (r :: records).
        split; [reflexivity|]. split; [reflexivity|].
        split; [cbn [written]; reflexivity|].
        split; [exact Hs | exact Hn].
      * destruct (str_eqb save_summary (lit "y")),
                 (str_eqb save_file (lit "y"));
          cbn [stdin written]; intros H; try discriminate;
          injection H as _ <-; left; reflexivity.
Qed.

End FailureFacts.

Section LineFacts.

Lemma splitlines_from_line (line : str) :
  forall (acc rest : str),
    boundary_free line ->
    splitlines_from acc (line ++ rest) = splitlines_from (rev line ++ acc) rest.
Proof.
  induction line as [|c line IH]; intros acc rest H; [reflexivity|].
  inversion H as [|? ? Hc Hline]; subst.
  cbn [app splitlines_from rev]. rewrite Hc, IH by exact Hline.
  rewrite <- app_assoc. reflexivity.
Qed.

Lemma splitlines_from_newline (acc rest : str) :
  splitlines_from acc (newline ++ rest) = rev acc :: splitlines_from [] rest.
Proof.
  destruct rest as [|c rest]; reflexivity.
Qed.

Lemma splitlines_joined_newline (lines : list str) :
  Forall boundary_free lines -> lines <> [] ->
  splitlines (join newline lines ++ newline) = lines.
Proof.
  unfold splitlines. induction 1 as [|l ls Hl Hls IH]; [congruence|].
  intros _. destruct ls as [|l2 ls].
  - cbn [join]. rewrite splitlines_from_line by exact Hl.
    rewrite app_nil_r.
    change newline with (newline ++ []). rewrite splitlines_from_newline.
    rewrite rev_involutive. reflexivity.
  - rewrite join_cons by discriminate. rewrite <- !app_assoc.
    rewrite splitlines_from_line by exact Hl.
    rewrite app_nil_r, splitlines_from_newline, rev_involutive.
    apply (f_equal (cons l)). apply IH. discriminate.
Qed.

Lemma splitlines_joined (lines : list str) :
  Forall boundary_free lines -> last lines [] <> [] ->
  splitlines (join newline lines) = lines.
Proof.
  unfold splitlines. induction 1 as [|l ls Hl Hls IH]; [reflexivity|].
  intros Hlast. destruct ls as [|l2 ls].
  - cbn [join last] in *.
    rewrite <- (app_nil_r l) at 1. rewrite splitlines_from_line by exact Hl.
    rewrite app_nil_r. cbn [splitlines_from].
    destruct (rev l) as [|c r] eqn:E.
    + apply (f_equal (@rev ascii)) in E. rewrite rev_involutive in E.
      cbn in E. congruence.
    + rewrite <- E, rev_involutive. reflexivity.
  - rewrite join_cons by discriminate.
    rewrite splitlines_from_line by exact Hl.
    rewrite app_nil_r, splitlines_from_newline, rev_involutive.
    apply (f_equal (cons l)). apply IH. exact Hlast.
Qed.

End LineFacts.

(** X17.  A run of [main] that ends in an exception has written no file,
    with one exception: when the summary file has been written and the
    modified file cannot be opened for writing, the run ends with [OSError]
    and leaves the summary file, the report of the replacement under the
    summary path of the recorded source file. *)
Theorem main_failure_leaves_at_most_summary
    (read_file : str -> option str)
    (tabulate : list (list value) -> list str -> str)
    (can_write : str -> bool)
    (w w' : world) (e : exn) :
  main read_file tabulate can_write w = (inl e, w') ->
  written w' = written w \/
  e = OSError /\
  exists details text0 from_list to_list w1 source_path
         modified summary0 records,
    get_user_input read_file w =
      (inr (details, text0, from_list, to_list), w1) /\
    dict_get details (lit "Source Text File") = Some source_path /\
    replace_strings_call text0 from_list to_list
      (dict_get details (lit "Search Prefix"))
      (dict_get details (lit "Search Suffix")) =
      inr (modified, summary0, records) /\
    written w' =
      written w ++
      [(summary_path source_path,
        report_text tabulate details summary0 records)] /\
    can_write (summary_path source_path) = true /\
    can_write (new_path source_path) = false.
Proof.
  unfold main, bind.
  destruct (get_user_input read_file w)
    as [[e0|[[[details text0] from_list] to_list]] w1] eqn:Hin.
  - intros H. injection H as _ <-. left.
    exact (get_user_input_written read_file _ _ _ Hin).
  - intros H. apply main_report_failure in H.
    rewrite <- (get_user_input_written read_file _ _ _ Hin).
    destruct H as [H|(He & source_path & modified & summary0 & records &
                      Hsrc & Hcall & Hw & Hs & Hn)];
      [left; exact H | right].
    split; [exact He|].
    exists details, text0, from_list, to_list, w1, source_path,
           modified, summary0, records.
    repeat split; assumption.
Qed.

(** X17 at a concrete input: the source file in the directory dir.x, whose
    new path lies in a directory that does not exist. *)
Lemma main_failure_leaves_at_most_summary_example :
  exists e w',
    main Session.read_file Session.tabulate Session.can_write
         (mk_world Session.answers_in_dir []) = (inl e, w') /\
    e = OSError /\
    map fst (written w') = [lit "dir.x/source_mod_summary.txt"] /\
    Session.can_write (lit "dir_mod.x/source_mod.txt") = false /\
    (written w' = [] \/
     e = OSError /\
     exists details text0 from_list to_list w1 source_path
            modified summary0 records,
       get_user_input Session.read_file
         (mk_world Session.answers_in_dir []) =
         (inr (details, text0, from_list, to_list), w1) /\
       dict_get details (lit "Source Text File") = Some source_path /\
       replace_strings_call text0 from_list to_list
         (dict_get details (lit "Search Prefix"))
         (dict_get details (lit "Search Suffix")) =
         inr (modified, summary0, records) /\
       written w' =
         [] ++
         [(summary_path source_path,
           report_text Session.tabulate details summary0 records)] /\
       Session.can_write (summary_path source_path) = true /\
       Session.can_write (new_path source_path) = false).
Proof.
  let v := eval vm_compute in
             (main Session.read_file Session.tabulate Session.can_write
                   (mk_world Session.answers_in_dir [])) in
  assert (H : main Session.read_file Session.tabulate Session.can_write
                   (mk_world Session.answers_in_dir []) = v)
    by (vm_compute; reflexivity);
  lazymatch v with (inl ?e, ?w') => exists e, w' end.
  split; [exact H|]. split; [reflexivity|].
  split; [vm_compute; reflexivity|]. split; [vm_compute; reflexivity|].
  exact (main_failure_leaves_at_most_summary _ _ _ _ _ _ H).
Defined.

(** X18.  Lines without line boundaries that are joined by line feeds
    are read back by [splitlines] as they were: always when a line feed
    follows the last line, and without one when the last line is not
    empty. *)
Theorem splitlines_of_joined_lines (lines : list str) :
  Forall (fun line => Forall (fun c => line_boundary c = false) line)
         lines ->
  lines <> [] ->
  splitlines (join newline lines ++ newline) = lines /\
  (last lines [] <> [] -> splitlines (join newline lines) = lines).
Proof.
  intros H Hne. split.
  - apply splitlines_joined_newline; assumption.
  - apply splitlines_joined. exact H.
Qed.

(** X18 at a concrete input. *)
Lemma splitlines_of_joined_lines_example :
  Forall (fun line => Forall (fun c => line_boundary c = false) line)
         [lit "word1"; []; lit "word3"] /\
  [lit "word1"; []; lit "word3"] <> [] /\
  splitlines (join newline [lit "word1"; []; lit "word3"] ++ newline) =
    [lit "word1"; []; lit "word3"] /\
  (last [lit "word1"; []; lit "word3"] [] <> [] ->
   splitlines (join newline [lit "word1"; []; lit "word3"]) =
     [lit "word1"; []; lit "word3"]).
Proof.
  assert (H : Forall (fun line => Forall (fun c => line_boundary c = false)
                                         line)
                     [lit "word1"; []; lit "word3"]).
  { repeat constructor. }
  assert (Hne : [lit "word1"; []; lit "word3"] <> @nil str) by discriminate.
  split; [exact H|]. split; [exact Hne|].
  exact (splitlines_of_joined_lines _ H Hne).
Defined.
